(** * Employee Management System: validation rules and status lifecycle

    A shallow embedding of the record types of [employee/models.py], the
    validators of [employee/serializers.py] and [employee/forms.py], the
    role tests of [employee/permissions.py] and the actions of
    [employee/api_views.py] and [employee/views.py], followed by the
    properties proved about them.

    Conventions.
    - A nullable column or an optional dictionary key is an [option].
    - [datetime.date] and [datetime.time] are records of integers, ordered
      as Python orders them (lexicographically); date subtraction goes
      through the proleptic Gregorian ordinal, as [datetime.date.__sub__].
    - A [DecimalField(max_digits=10, decimal_places=2)] value is the
      integer number of hundredths; it is falsy exactly when it is zero.
    - A queryset or a table is the list of its rows.
    - A raised exception is the left injection of a sum.
    - A key of a request body that an action reads with
      [request.data.get] is missing, [null] or a text; JSON values of
      other kinds are not modelled.
    - An action that starts with a lookup takes the table and the primary
      key; a lookup that finds nothing is the 404 answer.  A write is
      committed when [save()] returns.
    - A request is served at one instant: every clock read while serving
      it, by the view or by [save()], returns the same [now]. *)

From Stdlib Require Import ZArith List String Ascii Bool Lia.
Import ListNotations.
Local Open Scope string_scope.
Local Open Scope Z_scope.

(* ================================================================== *)
(** ** Python values used by the application *)
(* ================================================================== *)

Module Datetime.

(** [datetime.date(year, month, day)]. *)
Record date := mkDate { year : Z; month : Z; day : Z }.

(** [datetime.time(hour, minute, second, microsecond)]. *)
Record time := mkTime { hour : Z; minute : Z; second : Z; microsecond : Z }.

(** A timestamp ([timezone.now()]), in seconds since the epoch. *)
Definition datetime := Z.

Definition is_leap (y : Z) : bool :=
  (y mod 4 =? 0) && (negb (y mod 100 =? 0) || (y mod 400 =? 0)).

Definition days_before_year (y : Z) : Z :=
  let y' := y - 1 in y' * 365 + y' / 4 - y' / 100 + y' / 400.

Definition DAYS_IN_MONTH : list Z :=
  [-1; 31; 28; 31; 30; 31; 30; 31; 31; 30; 31; 30; 31].

Definition DAYS_BEFORE_MONTH : list Z :=
  [-1; 0; 31; 59; 90; 120; 151; 181; 212; 243; 273; 304; 334].

Definition days_in_month (y m : Z) : Z :=
  if (m =? 2) && is_leap y then 29 else nth (Z.to_nat m) DAYS_IN_MONTH 0.

Definition days_before_month (y m : Z) : Z :=
  nth (Z.to_nat m) DAYS_BEFORE_MONTH 0
  + (if (2 <? m) && is_leap y then 1 else 0).

(** [date.toordinal()]: 0001-01-01 is day 1. *)
Definition toordinal (d : date) : Z :=
  days_before_year (year d) + days_before_month (year d) (month d) + day d.

(** The dates the [date] constructor accepts. *)
Definition valid_date (d : date) : bool :=
  (1 <=? year d) && (year d <=? 9999)
  && (1 <=? month d) && (month d <=? 12)
  && (1 <=? day d) && (day d <=? days_in_month (year d) (month d)).

Definition date_eqb (a b : date) : bool :=
  (year a =? year b) && (month a =? month b) && (day a =? day b).

(** [a < b] on dates: the order of the triples (year, month, day). *)
Definition date_ltb (a b : date) : bool :=
  (year a <? year b)
  || ((year a =? year b)
      && ((month a <? month b)
          || ((month a =? month b) && (day a <? day b)))).

Definition date_leb (a b : date) : bool := negb (date_ltb b a).

(** [(a - b).days]. *)
Definition sub_days (a b : date) : Z := toordinal a - toordinal b.

(** [a < b] on times of day: the order of the tuples
    (hour, minute, second, microsecond). *)
Definition time_ltb (a b : time) : bool :=
  (hour a <? hour b)
  || ((hour a =? hour b)
      && ((minute a <? minute b)
          || ((minute a =? minute b)
              && ((second a <? second b)
                  || ((second a =? second b)
                      && (microsecond a <? microsecond b)))))).

(** The successor of a date in the calendar. *)
Definition next_day (d : date) : date :=
  if day d <? days_in_month (year d) (month d)
  then mkDate (year d) (month d) (day d + 1)
  else if month d <? 12
       then mkDate (year d) (month d + 1) 1
       else mkDate (year d + 1) 1 1.

(** Decimal digits of a natural number, most significant first. *)
Definition digit (n : Z) : string :=
  String (ascii_of_nat (48 + Z.to_nat (n mod 10))) EmptyString.

Fixpoint digits (width : nat) (n : Z) : string :=
  match width with
  | O => EmptyString
  | S w => digits w (n / 10) ++ digit n
  end.

(** [str(d)], i.e. [d.isoformat()]: ["%04d-%02d-%02d"]. *)
Definition isoformat (d : date) : string :=
  digits 4 (year d) ++ "-" ++ digits 2 (month d) ++ "-" ++ digits 2 (day d).

End Datetime.

(** [decimal.Decimal] with two decimal places, in hundredths. *)
Definition Decimal := Z.

(** Truth value of a [Decimal]: zero is falsy. *)
Definition decimal_truthy (x : Decimal) : bool := negb (x =? 0).

(* ================================================================== *)
(** ** employee/models.py *)
(* ================================================================== *)

Module Models.
Import Datetime.

(** Primary keys ([AutoField]) and foreign-key columns. *)
Definition pk := Z.

(** [django.contrib.auth.models.User], with the group names it belongs to
    and the [employee_profile] reverse one-to-one link ([None] when no
    employee row points at the user, in which case
    [hasattr(user, 'employee_profile')] is false). *)
Record User := mkUser {
  user_pk : pk;
  is_authenticated : bool;
  is_staff : bool;
  groups : list string;
  employee_profile : option pk
}.

Record Position := mkPosition {
  position_pk : pk;
  title : string;
  min_salary : option Decimal;
  max_salary : option Decimal
}.

(** [Employee.STATUS_CHOICES]. *)
Inductive EmployeeStatus := active | on_leave | terminated | resigned.

(** The columns of [Employee] that the validators and the actions read or
    write; the contact, address and emergency-contact columns are carried
    along unread and are left out. *)
Record Employee := mkEmployee {
  employee_pk : pk;
  employee_id : string;
  first_name : string;
  last_name : string;
  email : string;
  department : pk;
  position : Position;
  status : EmployeeStatus;
  date_joined : date;
  date_left : option date;
  salary : option Decimal;
  manager : option pk;
  user : option pk;
  created_by : option pk;
  notes : string;
  updated_at : datetime
}.

(** [Attendance]; [unique_together = ['employee', 'date']].  The status
    column is a [CharField]: whatever text a caller hands over is what is
    stored. *)
Record Attendance := mkAttendance {
  attendance_pk : pk;
  att_employee : pk;
  att_date : date;
  check_in : option time;
  check_out : option time;
  att_status : string;
  att_notes : string;
  att_created_at : datetime;
  att_updated_at : datetime
}.

(** [LeaveRequest.STATUS_CHOICES]. *)
Inductive LeaveStatus := pending | approved | rejected | cancelled.

Definition LeaveStatus_eqb (a b : LeaveStatus) : bool :=
  match a, b with
  | pending, pending | approved, approved
  | rejected, rejected | cancelled, cancelled => true
  | _, _ => false
  end.

(** [LeaveRequest].  There is no [total_days] column. *)
Record LeaveRequest := mkLeaveRequest {
  leave_pk : pk;
  leave_employee : pk;
  leave_type : string;
  start_date : date;
  end_date : date;
  reason : string;
  leave_status : LeaveStatus;
  approved_by : option pk;
  approval_date : option datetime;
  rejection_reason : string;
  leave_created_at : datetime;
  leave_updated_at : datetime
}.

(** [LeaveRequest.total_days] (a property, computed at each access). *)
Definition total_days (self : LeaveRequest) : Z :=
  sub_days (end_date self) (start_date self) + 1.

(** Assignment to one attribute of a leave request. *)
Definition set_start_date (d : date) (r : LeaveRequest) : LeaveRequest :=
  mkLeaveRequest (leave_pk r) (leave_employee r) (leave_type r) d
    (end_date r) (reason r) (leave_status r) (approved_by r)
    (approval_date r) (rejection_reason r) (leave_created_at r)
    (leave_updated_at r).

Definition set_end_date (d : date) (r : LeaveRequest) : LeaveRequest :=
  mkLeaveRequest (leave_pk r) (leave_employee r) (leave_type r)
    (start_date r) d (reason r) (leave_status r) (approved_by r)
    (approval_date r) (rejection_reason r) (leave_created_at r)
    (leave_updated_at r).

Definition set_leave_status (s : LeaveStatus) (r : LeaveRequest)
  : LeaveRequest :=
  mkLeaveRequest (leave_pk r) (leave_employee r) (leave_type r)
    (start_date r) (end_date r) (reason r) s (approved_by r)
    (approval_date r) (rejection_reason r) (leave_created_at r)
    (leave_updated_at r).

Definition set_approved_by (u : option pk) (r : LeaveRequest)
  : LeaveRequest :=
  mkLeaveRequest (leave_pk r) (leave_employee r) (leave_type r)
    (start_date r) (end_date r) (reason r) (leave_status r) u
    (approval_date r) (rejection_reason r) (leave_created_at r)
    (leave_updated_at r).

Definition set_approval_date (t : option datetime) (r : LeaveRequest)
  : LeaveRequest :=
  mkLeaveRequest (leave_pk r) (leave_employee r) (leave_type r)
    (start_date r) (end_date r) (reason r) (leave_status r) (approved_by r)
    t (rejection_reason r) (leave_created_at r) (leave_updated_at r).

Definition set_rejection_reason (s : string) (r : LeaveRequest)
  : LeaveRequest :=
  mkLeaveRequest (leave_pk r) (leave_employee r) (leave_type r)
    (start_date r) (end_date r) (reason r) (leave_status r) (approved_by r)
    (approval_date r) s (leave_created_at r) (leave_updated_at r).

(** [LeaveRequest.save()]: [updated_at] is an [auto_now] column. *)
Definition save_leave (now : datetime) (r : LeaveRequest) : LeaveRequest :=
  mkLeaveRequest (leave_pk r) (leave_employee r) (leave_type r)
    (start_date r) (end_date r) (reason r) (leave_status r) (approved_by r)
    (approval_date r) (rejection_reason r) (leave_created_at r) now.

(** [UPDATE ... WHERE id = obj.pk], the statement [save()] issues for a
    stored leave request. *)
Definition write (obj : LeaveRequest) (table : list LeaveRequest)
  : list LeaveRequest :=
  map (fun r => if leave_pk r =? leave_pk obj then obj else r) table.

(** Assignment to the attributes of an employee that [terminate] writes,
    and [Employee.save()] with its [auto_now] column. *)
Definition set_status (s : EmployeeStatus) (e : Employee) : Employee :=
  mkEmployee (employee_pk e) (employee_id e) (first_name e) (last_name e)
    (email e) (department e) (position e) s (date_joined e) (date_left e)
    (salary e) (manager e) (user e) (created_by e) (notes e) (updated_at e).

Definition set_date_left (d : option date) (e : Employee) : Employee :=
  mkEmployee (employee_pk e) (employee_id e) (first_name e) (last_name e)
    (email e) (department e) (position e) (status e) (date_joined e) d
    (salary e) (manager e) (user e) (created_by e) (notes e) (updated_at e).

Definition set_notes (n : string) (e : Employee) : Employee :=
  mkEmployee (employee_pk e) (employee_id e) (first_name e) (last_name e)
    (email e) (department e) (position e) (status e) (date_joined e)
    (date_left e) (salary e) (manager e) (user e) (created_by e) n
    (updated_at e).

Definition save_employee (now : datetime) (e : Employee) : Employee :=
  mkEmployee (employee_pk e) (employee_id e) (first_name e) (last_name e)
    (email e) (department e) (position e) (status e) (date_joined e)
    (date_left e) (salary e) (manager e) (user e) (created_by e) (notes e)
    now.

(** [UPDATE ... WHERE id = obj.pk] on the employee table. *)
Definition write_employee (obj : Employee) (table : list Employee)
  : list Employee :=
  map (fun e => if employee_pk e =? employee_pk obj then obj else e) table.

End Models.

(* ================================================================== *)
(** ** employee/permissions.py *)
(* ================================================================== *)

Module Permissions.
Import Models.

Definition SAFE_METHODS : list string := ["GET"; "HEAD"; "OPTIONS"].

(** [user.groups.filter(name=g).exists()]. *)
Definition in_group (g : string) (u : User) : bool :=
  existsb (String.eqb g) (groups u).

(** The elevated role, as every permission class tests it:
    [user.is_staff or user.groups.filter(name='HR').exists()]. *)
Definition is_hr (u : User) : bool := is_staff u || in_group "HR" u.

(** [IsHROrReadOnly.has_permission]. *)
Definition has_permission (method : string) (u : User) : bool :=
  if existsb (String.eqb method) SAFE_METHODS
  then is_authenticated u
  else is_authenticated u && (is_staff u || in_group "HR" u).

End Permissions.

(* ================================================================== *)
(** ** Validation results *)
(* ================================================================== *)

(** One constructor per [ValidationError] message of the validators:
    - [EmailExists]: "An employee with this email already exists."
    - [EmployeeIdExists]: "An employee with this ID already exists."
    - [DateLeftBeforeJoined]: "Date left cannot be before date joined."
    - [SalaryBelowMinimum m]: "Salary cannot be less than position minimum: m"
    - [SalaryAboveMaximum m]: "Salary cannot exceed position maximum: m"
    - [CheckOutBeforeCheckIn]: "Check-out time cannot be before check-in time."
    - [EndBeforeStart]: "End date cannot be before start date." *)
Inductive ValidationError :=
| EmailExists
| EmployeeIdExists
| DateLeftBeforeJoined
| SalaryBelowMinimum (m : Decimal)
| SalaryAboveMaximum (m : Decimal)
| CheckOutBeforeCheckIn
| EndBeforeStart.

(** A validator either raises a [ValidationError] or returns a value. *)
Definition validated (A : Type) : Type := (ValidationError + A)%type.

Definition bind {A B : Type} (c : validated A) (k : A -> validated B)
  : validated B :=
  match c with
  | inl e => inl e
  | inr a => k a
  end.

(** [if c: raise e]. *)
Definition raise_if (c : bool) (e : ValidationError) : validated unit :=
  if c then inl e else inr tt.

Notation "c1 ;; c2" := (bind c1 (fun _ => c2))
  (at level 61, right associativity).

(** The errors a validation outcome reports. *)
Definition errors {A : Type} (r : validated A) : list ValidationError :=
  match r with
  | inl e => [e]
  | inr _ => []
  end.

Definition is_valid {A : Type} (r : validated A) : bool :=
  match r with
  | inl _ => false
  | inr _ => true
  end.

(** The candidate employee record a validator is handed: the [data]
    dictionary of the serializer, the [cleaned_data] of the form.  A field
    is [None] when its key is missing or its value is [None]. *)
Record EmployeeData := mkEmployeeData {
  data_employee_id : option string;
  data_email : option string;
  data_date_joined : option Datetime.date;
  data_date_left : option Datetime.date;
  data_salary : option Decimal;
  data_position : option Models.Position
}.

(** The attendance fields the validators read. *)
Record AttendanceData := mkAttendanceData {
  data_check_in : option Datetime.time;
  data_check_out : option Datetime.time
}.

(** The leave-request fields the validators read. *)
Record LeaveData := mkLeaveData {
  data_start_date : option Datetime.date;
  data_end_date : option Datetime.date
}.

(** [Employee.objects.filter(<column>=value)
       .exclude(pk=instance.pk if instance else None).exists()]. *)
Definition exists_other (column : Models.Employee -> string)
    (objects : list Models.Employee) (instance : option Models.Employee)
    (value : string) : bool :=
  existsb
    (fun e =>
       String.eqb (column e) value
       && negb (match instance with
                | Some i => Models.employee_pk e =? Models.employee_pk i
                | None => false
                end))
    objects.

(* ================================================================== *)
(** ** employee/serializers.py *)
(* ================================================================== *)

Module EmployeeCreateUpdateSerializer.
Import Datetime Models.

Section Serializer.
(** [Employee.objects] and [self.instance]. *)
Variable objects : list Employee.
Variable instance : option Employee.

Definition validate_email (value : string) : validated string :=
  raise_if (exists_other email objects instance value) EmailExists ;;
  inr value.

Definition validate_employee_id (value : string) : validated string :=
  raise_if (exists_other employee_id objects instance value)
    EmployeeIdExists ;;
  inr value.

(** The date-ordering block of [validate]. *)
Definition check_dates (data : EmployeeData) : validated unit :=
  match data_date_left data, data_date_joined data with
  | Some d_left, Some d_joined =>
      raise_if (date_ltb d_left d_joined) DateLeftBeforeJoined
  | _, _ => inr tt
  end.

(** [data.get('position', self.instance.position if self.instance else None)]. *)
Definition get_position (data : EmployeeData) : option Position :=
  match data_position data with
  | Some p => Some p
  | None => option_map position instance
  end.

(** The salary block of [validate].  [position.min_salary and ...] is
    false for [None] and for a zero bound; likewise for the maximum. *)
Definition check_salary (data : EmployeeData) : validated unit :=
  match data_salary data with
  | Some salary =>
      if decimal_truthy salary then
        match get_position data with
        | Some position =>
            match min_salary position with
            | Some m =>
                raise_if (decimal_truthy m && (salary <? m))
                  (SalaryBelowMinimum m)
            | None => inr tt
            end ;;
            match max_salary position with
            | Some m =>
                raise_if (decimal_truthy m && (m <? salary))
                  (SalaryAboveMaximum m)
            | None => inr tt
            end
        | None => inr tt
        end
      else inr tt
  | None => inr tt
  end.

(** [EmployeeCreateUpdateSerializer.validate]. *)
Definition validate (data : EmployeeData) : validated EmployeeData :=
  check_dates data ;;
  check_salary data ;;
  inr data.

End Serializer.

(** The validated data of an update, key by key, for the columns of
    [Employee] this serializer writes: [None] is a key the request did not
    send (a PATCH sends any subset), and for a nullable column
    [Some None] is a key sent as [null]. *)
Record ValidatedData := mkValidatedData {
  sent_employee_id : option string;
  sent_first_name : option string;
  sent_last_name : option string;
  sent_email : option string;
  sent_department : option pk;
  sent_position : option Position;
  sent_status : option EmployeeStatus;
  sent_date_joined : option date;
  sent_date_left : option (option date);
  sent_salary : option (option Decimal);
  sent_manager : option (option pk);
  sent_user : option (option pk);
  sent_notes : option string
}.

(** What [data.get(key)] returns for the keys [validate] reads: [None]
    for a missing key and for [null] alike. *)
Definition as_data (validated_data : ValidatedData) : EmployeeData :=
  mkEmployeeData
    (sent_employee_id validated_data)
    (sent_email validated_data)
    (sent_date_joined validated_data)
    (match sent_date_left validated_data with
     | Some value => value
     | None => None
     end)
    (match sent_salary validated_data with
     | Some value => value
     | None => None
     end)
    (sent_position validated_data).

(** [setattr(instance, attr, value)] for a key that was sent. *)
Definition assigned {A : Type} (sent : option A) (stored : A) : A :=
  match sent with
  | Some value => value
  | None => stored
  end.

(** [ModelSerializer.update], which this serializer inherits: every key
    of the validated data is assigned to the instance, which is then
    saved; a column whose key was not sent keeps its stored value. *)
Definition update (now : datetime) (instance : Employee)
    (validated_data : ValidatedData) : Employee :=
  save_employee now
    (mkEmployee (employee_pk instance)
       (assigned (sent_employee_id validated_data) (employee_id instance))
       (assigned (sent_first_name validated_data) (first_name instance))
       (assigned (sent_last_name validated_data) (last_name instance))
       (assigned (sent_email validated_data) (email instance))
       (assigned (sent_department validated_data) (department instance))
       (assigned (sent_position validated_data) (position instance))
       (assigned (sent_status validated_data) (status instance))
       (assigned (sent_date_joined validated_data) (date_joined instance))
       (assigned (sent_date_left validated_data) (date_left instance))
       (assigned (sent_salary validated_data) (salary instance))
       (assigned (sent_manager validated_data) (manager instance))
       (assigned (sent_user validated_data) (user instance))
       (created_by instance)
       (assigned (sent_notes validated_data) (notes instance))
       (updated_at instance)).

(** An update of a stored employee from data the fields have accepted:
    the cross-field [validate], and when it raises nothing,
    [serializer.save()]. *)
Definition validate_and_save (now : datetime) (instance : Employee)
    (validated_data : ValidatedData) : validated Employee :=
  validate (Some instance) (as_data validated_data) ;;
  inr (update now instance validated_data).

End EmployeeCreateUpdateSerializer.

Module AttendanceSerializer.
Import Datetime.

(** [AttendanceSerializer.validate]. *)
Definition validate (data : AttendanceData) : validated AttendanceData :=
  match data_check_out data, data_check_in data with
  | Some check_out, Some check_in =>
      raise_if (time_ltb check_out check_in) CheckOutBeforeCheckIn
  | _, _ => inr tt
  end ;;
  inr data.

End AttendanceSerializer.

Module LeaveRequestSerializer.
Import Datetime.

(** [LeaveRequestSerializer.validate]. *)
Definition validate (data : LeaveData) : validated LeaveData :=
  match data_end_date data, data_start_date data with
  | Some end_date, Some start_date =>
      raise_if (date_ltb end_date start_date) EndBeforeStart
  | _, _ => inr tt
  end ;;
  inr data.

End LeaveRequestSerializer.

(* ================================================================== *)
(** ** employee/forms.py *)
(* ================================================================== *)

Module EmployeeForm.
Import Datetime Models.

Section Form.
(** [Employee.objects] and [self.instance] ([None]: an unsaved instance,
    whose [pk] is [None]). *)
Variable objects : list Employee.
Variable instance : option Employee.

(** [clean_email]; the value is [None] when the field itself failed. *)
Definition clean_email (cleaned_data : EmployeeData)
  : validated (option string) :=
  match data_email cleaned_data with
  | Some value =>
      raise_if (exists_other email objects instance value) EmailExists ;;
      inr (Some value)
  | None => inr None
  end.

Definition clean_employee_id (cleaned_data : EmployeeData)
  : validated (option string) :=
  match data_employee_id cleaned_data with
  | Some value =>
      raise_if (exists_other employee_id objects instance value)
        EmployeeIdExists ;;
      inr (Some value)
  | None => inr None
  end.

End Form.

(** [EmployeeForm.clean]. *)
Definition clean (cleaned_data : EmployeeData) : validated EmployeeData :=
  match data_date_left cleaned_data, data_date_joined cleaned_data with
  | Some d_left, Some d_joined =>
      raise_if (date_ltb d_left d_joined) DateLeftBeforeJoined
  | _, _ => inr tt
  end ;;
  inr cleaned_data.

End EmployeeForm.

Module LeaveRequestForm.
Import Datetime.

(** [LeaveRequestForm.clean]. *)
Definition clean (cleaned_data : LeaveData) : validated LeaveData :=
  match data_end_date cleaned_data, data_start_date cleaned_data with
  | Some end_date, Some start_date =>
      raise_if (date_ltb end_date start_date) EndBeforeStart
  | _, _ => inr tt
  end ;;
  inr cleaned_data.

End LeaveRequestForm.

Module AttendanceForm.

(** [AttendanceForm] declares a [Meta] class only: [clean] is the one it
    inherits from [forms.ModelForm], which returns [cleaned_data]. *)
Definition clean (cleaned_data : AttendanceData)
  : validated AttendanceData :=
  inr cleaned_data.

End AttendanceForm.

(* ================================================================== *)
(** ** Responses *)
(* ================================================================== *)

Definition HTTP_200_OK : Z := 200.
Definition HTTP_201_CREATED : Z := 201.
Definition HTTP_400_BAD_REQUEST : Z := 400.

(** [Response(data, status=...)]: the body is either [{'error': message}]
    or the serialized object(s). *)
Inductive Body (A : Type) :=
| error_body (message : string)
| data_body (payload : A).
Arguments error_body {A} message.
Arguments data_body {A} payload.

Record Response (A : Type) := mkResponse {
  body : Body A;
  status_code : Z
}.
Arguments mkResponse {A} body status_code.
Arguments body {A} r.
Arguments status_code {A} r.

(** The line feed of Python's ["\n"]. *)
Definition LF : string := String (ascii_of_nat 10) EmptyString.

(* ================================================================== *)
(** ** Request bodies *)
(* ================================================================== *)

(** One key of [request.data]: the key is missing, it holds JSON [null],
    or it holds a value.  A form-encoded body has no [null]. *)
Inductive Field (A : Type) :=
| missing
| null
| given (value : A).
Arguments missing {A}.
Arguments null {A}.
Arguments given {A} value.

Module Request.

(** [request.data.get(key, default)]: the default stands in for a missing
    key only; the result [None] is Python's [None]. *)
Definition get {A : Type} (field : Field A) (default : A) : option A :=
  match field with
  | missing => Some default
  | null => None
  | given value => Some value
  end.

(** [str(x)] for a text or [None], as an f-string prints it. *)
Definition str (x : option string) : string :=
  match x with
  | Some text => text
  | None => "None"
  end.

End Request.

(* ================================================================== *)
(** ** employee/api_views.py *)
(* ================================================================== *)

Module EmployeeViewSet.
Import Datetime Models.

(** The two keys [terminate] reads from [request.data], each a text,
    [null] or missing. *)
Record TerminateData := mkTerminateData {
  req_date_left : Field string;
  req_reason : Field string
}.

(** What the local [date_left] of [terminate] holds, and with it the
    attribute [employee.date_left] from the assignment on: [None], the
    text of the request, or the date [timezone.now().date()]. *)
Inductive DateLeft :=
| is_none
| is_text (raw : string)
| is_date (d : date).

(** [request.data.get('date_left', timezone.now().date())]. *)
Definition date_left_of (today : date) (data : TerminateData) : DateLeft :=
  match req_date_left data with
  | missing => is_date today
  | null => is_none
  | given raw => is_text raw
  end.

(** [str(date_left)], as the f-string prints it. *)
Definition str (v : DateLeft) : string :=
  match v with
  | is_none => "None"
  | is_text raw => raw
  | is_date d => isoformat d
  end.

(** The truth value of [date_left]: [None] and the empty text are
    falsy. *)
Definition truthy (v : DateLeft) : bool :=
  match v with
  | is_none => false
  | is_text raw => negb (String.eqb raw "")
  | is_date _ => true
  end.

(** What [terminate] raises and does not catch: the [ValidationError] of
    the date column, from [save()], and [TypeError], from
    [serializer.data]. *)
Inductive Exception :=
| InvalidDate
| TypeError.

(** [Employee.years_of_service] (models.py) on the object [terminate]
    holds, whose [date_left] is what was assigned to it: a text minus a
    date raises. *)
Definition years_of_service (date_joined : date) (date_left : DateLeft)
    (today : date) : Exception + Z :=
  let end_date := if truthy date_left then date_left else is_date today in
  match end_date with
  | is_date d => inr (sub_days d date_joined / 365)
  | is_text _ | is_none => inl TypeError
  end.

(** [EmployeeDetailSerializer(employee).data]: the columns of the object
    and its computed [years_of_service]. *)
Record EmployeeDetail := mkEmployeeDetail {
  detail_employee : Employee;
  detail_years_of_service : Z
}.

(** [self.get_object()], with no filter parameters in the request: the
    stored employee with the primary key asked for; [None] stands for the
    404 answer. *)
Definition get_object (table : list Employee) (id : pk) : option Employee :=
  find (fun e => employee_pk e =? id) table.

Section Terminate.

(** [DateField.to_python] on a text, which [save()] applies to the
    attribute [date_left]: the date the text is read as, or [None] when
    the text is refused with a [ValidationError]. *)
Variable to_python : string -> option date.

(** The value [save()] writes to the [date_left] column; [None] when
    [to_python] raises. *)
Definition column (v : DateLeft) : option (option date) :=
  match v with
  | is_none => Some None
  | is_text raw => option_map Some (to_python raw)
  | is_date d => Some (Some d)
  end.

(** [EmployeeViewSet.terminate]; [today] is [timezone.now().date()] and
    [now] the clock read by [save()].  The attribute [employee.date_left]
    holds the local [date_left] as it is; [save()] writes what
    [to_python] makes of it and leaves the attribute alone, so
    [serializer.data] computes [years_of_service] from the local.  The
    result is what the call raises or answers ([None]: 404), and the
    employee table afterwards: [save()] has written the row when
    [serializer.data] raises. *)
Definition terminate (today : date) (now : datetime)
    (table : list Employee) (id : pk) (data : TerminateData)
  : (Exception + option (Response EmployeeDetail)) * list Employee :=
  match get_object table id with
  | None => (inr None, table)
  | Some employee =>
      let date_left := date_left_of today data in
      let reason := Request.get (req_reason data) "" in
      let employee := set_status terminated employee in
      let employee :=
        set_notes
          (notes employee ++ LF ++ LF ++ "Termination Date: "
           ++ str date_left ++ LF ++ "Reason: " ++ Request.str reason)
          employee in
      match column date_left with
      | None => (inl InvalidDate, table)
      | Some stored =>
          let employee := save_employee now (set_date_left stored employee) in
          let table := write_employee employee table in
          match years_of_service (date_joined employee) date_left today with
          | inl exn => (inl exn, table)
          | inr years =>
              (inr (Some (mkResponse
                            (data_body (mkEmployeeDetail employee years))
                            HTTP_200_OK)),
               table)
          end
      end
  end.

End Terminate.

(** What a call appends to the notes. *)
Definition appended (today : date) (data : TerminateData) : string :=
  LF ++ LF ++ "Termination Date: " ++ str (date_left_of today data) ++ LF
  ++ "Reason: " ++ Request.str (Request.get (req_reason data) "").

End EmployeeViewSet.

(** The tables [bulk_mark] reads and writes: the stored employees, the
    attendance rows, and the last primary key the attendance table's
    sequence handed out. *)
Record Database := mkDatabase {
  employees : list Models.Employee;
  attendance : list Models.Attendance;
  attendance_seq : Models.pk
}.

(** What a manager call can raise. *)
Inductive DatabaseError :=
| IntegrityError
| MultipleObjectsReturned.

Module AttendanceManager.
Import Datetime Models.

(** The lookup [employee_id=emp_id, date=date]. *)
Definition matches (emp_id : pk) (d : date) (a : Attendance) : bool :=
  (att_employee a =? emp_id) && date_eqb (att_date a) d.

(** The foreign key [Attendance.employee] resolves. *)
Definition employee_exists (db : Database) (emp_id : pk) : bool :=
  existsb (fun e => employee_pk e =? emp_id) (employees db).

(** [setattr(obj, 'status', value); obj.save()] on a fetched row. *)
Definition with_status (value : string) (now : datetime) (a : Attendance)
  : Attendance :=
  mkAttendance (attendance_pk a) (att_employee a) (att_date a) (check_in a)
    (check_out a) value (att_notes a) (att_created_at a) now.

(** [UPDATE ... WHERE id = obj.pk]. *)
Definition update_row (obj : Attendance) (rows : list Attendance)
  : list Attendance :=
  map (fun a => if attendance_pk a =? attendance_pk obj then obj else a)
    rows.

(** [Attendance.objects.update_or_create(employee_id=emp_id, date=date,
    defaults={'status': status_value})], as Django defines it: fetch the
    row matching the lookup; when there is none, insert one (the insert
    violates the foreign key when [emp_id] is not a stored employee); when
    there is one, assign the defaults and save; when there are several,
    raise.  The status column is NOT NULL: inserting or saving a row whose
    status is [None] violates it.  A call that raises leaves the tables as
    they were. *)
Definition update_or_create (now : datetime) (db : Database) (emp_id : pk)
    (d : date) (status_value : option string)
  : (DatabaseError + Attendance * bool) * Database :=
  match filter (matches emp_id d) (attendance db) with
  | [] =>
      match status_value with
      | Some value =>
          if employee_exists db emp_id then
            let id := attendance_seq db + 1 in
            let obj :=
              mkAttendance id emp_id d None None value "" now now in
            (inr (obj, true),
             mkDatabase (employees db) (attendance db ++ [obj]) id)
          else (inl IntegrityError, db)
      | None => (inl IntegrityError, db)
      end
  | [obj] =>
      match status_value with
      | Some value =>
          let obj := with_status value now obj in
          (inr (obj, false),
           mkDatabase (employees db) (update_row obj (attendance db))
             (attendance_seq db))
      | None => (inl IntegrityError, db)
      end
  | _ :: _ :: _ => (inl MultipleObjectsReturned, db)
  end.

End AttendanceManager.

Module AttendanceViewSet.
Import Datetime Models AttendanceManager.

(** The keys [bulk_mark] reads from [request.data]; [req_date] is [None]
    when the key is missing or its value is empty; ['status'] is a text,
    [null] or missing. *)
Record BulkMarkData := mkBulkMarkData {
  req_date : option date;
  req_employee_ids : list pk;
  req_status : Field string
}.

(** The [for emp_id in employee_ids] loop of [bulk_mark]: each call is a
    transaction of its own, so the rows written before a call that raises
    stay written, and the identifiers after it are never reached. *)
Fixpoint mark_each (now : datetime) (db : Database) (d : date)
    (status_value : option string) (employee_ids : list pk)
    (attendance_records : list Attendance)
  : (DatabaseError + list Attendance) * Database :=
  match employee_ids with
  | [] => (inr attendance_records, db)
  | emp_id :: rest =>
      match update_or_create now db emp_id d status_value with
      | (inl exn, db') => (inl exn, db')
      | (inr (obj, _), db') =>
          mark_each now db' d status_value rest
            (attendance_records ++ [obj])
      end
  end.

(** [AttendanceViewSet.bulk_mark]: an uncaught exception, or a response. *)
Definition bulk_mark (now : datetime) (db : Database) (data : BulkMarkData)
  : (DatabaseError + Response (list Attendance)) * Database :=
  let status_value := Request.get (req_status data) "present" in
  match req_date data, req_employee_ids data with
  | None, _ | _, [] =>
      (inr (mkResponse (error_body "Date and employee_ids are required")
              HTTP_400_BAD_REQUEST),
       db)
  | Some d, employee_ids =>
      match mark_each now db d status_value employee_ids [] with
      | (inl exn, db') => (inl exn, db')
      | (inr attendance_records, db') =>
          (inr (mkResponse (data_body attendance_records) HTTP_201_CREATED),
           db')
      end
  end.

(** The attendance rows stored for one (employee, date) key. *)
Definition records_for (db : Database) (emp_id : pk) (d : date)
  : list Attendance :=
  filter (matches emp_id d) (attendance db).

(** A sequence of [bulk_mark] calls, each with the time it is served at,
    whatever each one returns. *)
Fixpoint run (db : Database) (calls : list (datetime * BulkMarkData))
  : Database :=
  match calls with
  | [] => db
  | (now, data) :: rest => run (snd (bulk_mark now db data)) rest
  end.

End AttendanceViewSet.

(** What the storage layer guarantees of the attendance table. *)
Module Constraints.
Import Datetime Models AttendanceManager.

(** The primary key is unique. *)
Definition primary_key_unique (db : Database) : Prop :=
  NoDup (map attendance_pk (attendance db)).

(** The sequence has handed out every primary key in the table. *)
Definition sequence_ahead (db : Database) : Prop :=
  forall a, In a (attendance db) -> attendance_pk a <= attendance_seq db.

(** [unique_together = ['employee', 'date']]: at most one row per key. *)
Definition unique_together (db : Database) : Prop :=
  forall emp_id d,
    (List.length (filter (matches emp_id d) (attendance db)) <= 1)%nat.

Definition hold (db : Database) : Prop :=
  primary_key_unique db /\ sequence_ahead db /\ unique_together db.

End Constraints.

Module LeaveRequestViewSet.
Import Datetime Models.

(** [LeaveRequestViewSet.get_queryset]; [queryset] is
    [LeaveRequest.objects.all()]. *)
Definition get_queryset (queryset : list LeaveRequest) (user : User)
  : list LeaveRequest :=
  match employee_profile user with
  | Some profile =>
      filter (fun r => leave_employee r =? profile) queryset
  | None => queryset
  end.

(** [self.get_object()], with no filter parameters in the request: the
    row of [get_queryset()] with the primary key asked for; [None] stands
    for the 404 answer. *)
Definition get_object (table : list LeaveRequest) (user : User) (id : pk)
  : option LeaveRequest :=
  find (fun r => leave_pk r =? id) (get_queryset table user).

(** [LeaveRequestViewSet.approve], for a [request.user] that
    [IsAuthenticated] has let through.  The result is the answer ([None]:
    404) and the table afterwards; only the branch that calls [save()]
    writes. *)
Definition approve (now : datetime) (table : list LeaveRequest)
    (user : User) (id : pk)
  : option (Response LeaveRequest) * list LeaveRequest :=
  match get_object table user id with
  | None => (None, table)
  | Some leave_request =>
      if negb (LeaveStatus_eqb (leave_status leave_request) pending) then
        (Some (mkResponse (error_body "Only pending requests can be approved")
                 HTTP_400_BAD_REQUEST),
         table)
      else
        let leave_request := set_leave_status approved leave_request in
        let leave_request :=
          set_approved_by (Some (user_pk user)) leave_request in
        let leave_request := set_approval_date (Some now) leave_request in
        let leave_request := save_leave now leave_request in
        (Some (mkResponse (data_body leave_request) HTTP_200_OK),
         write leave_request table)
  end.

(** [LeaveRequestViewSet.reject]; [rejection_reason] is the
    ['rejection_reason'] key of [request.data].  The column is NOT NULL:
    [save()] raises when the key holds [null], and the row stays as it
    was. *)
Definition reject (now : datetime) (table : list LeaveRequest)
    (user : User) (id : pk) (rejection_reason : Field string)
  : (DatabaseError + option (Response LeaveRequest)) * list LeaveRequest :=
  match get_object table user id with
  | None => (inr None, table)
  | Some leave_request =>
      if negb (LeaveStatus_eqb (leave_status leave_request) pending) then
        (inr (Some (mkResponse
                      (error_body "Only pending requests can be rejected")
                      HTTP_400_BAD_REQUEST)),
         table)
      else
        let rejection_reason := Request.get rejection_reason "" in
        let leave_request := set_leave_status rejected leave_request in
        let leave_request :=
          set_approved_by (Some (user_pk user)) leave_request in
        let leave_request := set_approval_date (Some now) leave_request in
        match rejection_reason with
        | None => (inl IntegrityError, table)
        | Some text =>
            let leave_request := set_rejection_reason text leave_request in
            let leave_request := save_leave now leave_request in
            (inr (Some (mkResponse (data_body leave_request) HTTP_200_OK)),
             write leave_request table)
        end
  end.

End LeaveRequestViewSet.

(* ================================================================== *)
(** ** employee/views.py *)
(* ================================================================== *)

Module Views.
Import Datetime Models.

(** [messages.success] and [messages.error]. *)
Inductive Message :=
| success (text : string)
| error (text : string).

(** [get_object_or_404(LeaveRequest, pk=pk)]; [None] stands for the 404
    answer. *)
Definition get_object_or_404 (table : list LeaveRequest) (id : pk)
  : option LeaveRequest :=
  find (fun r => leave_pk r =? id) table.

(** [leave_request_approve], for a [request.user] that [login_required]
    has let through: the message ([None]: 404) and the table afterwards. *)
Definition leave_request_approve (now : datetime)
    (table : list LeaveRequest) (user : User) (id : pk)
  : option Message * list LeaveRequest :=
  match get_object_or_404 table id with
  | None => (None, table)
  | Some leave_request =>
      if LeaveStatus_eqb (leave_status leave_request) pending then
        let leave_request := set_leave_status approved leave_request in
        let leave_request :=
          set_approved_by (Some (user_pk user)) leave_request in
        let leave_request := set_approval_date (Some now) leave_request in
        let leave_request := save_leave now leave_request in
        (Some (success "Leave request approved successfully!"),
         write leave_request table)
      else
        (Some (error "Only pending requests can be approved."), table)
  end.

(** [leave_request_reject]; [rejection_reason] is the ['rejection_reason']
    key of [request.POST], a text when present. *)
Definition leave_request_reject (now : datetime)
    (table : list LeaveRequest) (user : User) (id : pk)
    (rejection_reason : option string)
  : option Message * list LeaveRequest :=
  match get_object_or_404 table id with
  | None => (None, table)
  | Some leave_request =>
      if LeaveStatus_eqb (leave_status leave_request) pending then
        let leave_request := set_leave_status rejected leave_request in
        let leave_request :=
          set_approved_by (Some (user_pk user)) leave_request in
        let leave_request := set_approval_date (Some now) leave_request in
        let leave_request :=
          set_rejection_reason
            (match rejection_reason with Some s => s | None => "" end)
            leave_request in
        let leave_request := save_leave now leave_request in
        (Some (success "Leave request rejected."),
         write leave_request table)
      else
        (Some (error "Only pending requests can be rejected."), table)
  end.

End Views.

(* ================================================================== *)
(** ** employee/models.py: computed properties and the other tables *)
(* ================================================================== *)

Module Directory.
Import Datetime Models.

(** [Department]. *)
Record Department := mkDepartment {
  department_pk : pk;
  name : string;
  code : string;
  department_manager : option pk;
  is_active : bool
}.

(** An [Employee] row together with two of the columns that
    [Models.Employee] does not carry. *)
Record EmployeeRow := mkEmployeeRow {
  base : Employee;
  employment_type : string;
  date_of_birth : option date
}.

Definition EmployeeStatus_eqb (a b : EmployeeStatus) : bool :=
  match a, b with
  | active, active | on_leave, on_leave
  | terminated, terminated | resigned, resigned => true
  | _, _ => false
  end.

(** [(a1, a2) < (b1, b2)] on pairs of integers. *)
Definition pair_ltb (a b : Z * Z) : bool :=
  (fst a <? fst b) || ((fst a =? fst b) && (snd a <? snd b)).

(** [Employee.full_name]. *)
Definition full_name (self : Employee) : string :=
  first_name self ++ " " ++ last_name self.

(** [Employee.age]; [today] is [timezone.now().date()]. *)
Definition age (self : EmployeeRow) (today : date) : option Z :=
  match date_of_birth self with
  | Some born =>
      Some (year today - year born
            - (if pair_ltb (month today, day today) (month born, day born)
               then 1 else 0))
  | None => None
  end.

(** [Employee.years_of_service]; [date_joined] is never null. *)
Definition years_of_service (self : Employee) (today : date) : Z :=
  let end_date :=
    match date_left self with Some d => d | None => today end in
  sub_days end_date (date_joined self) / 365.

(** [s.split(sep)] for a one-character separator: the first segment and
    the segments after it. *)
Fixpoint split_at (sep : ascii) (s : string) : string * list string :=
  match s with
  | EmptyString => (EmptyString, [])
  | String c s' =>
      let (seg, rest) := split_at sep s' in
      if Ascii.eqb c sep then (EmptyString, seg :: rest)
      else (String c seg, rest)
  end.

Definition split (sep : ascii) (s : string) : list string :=
  let (seg, rest) := split_at sep s in seg :: rest.

(** [employee_photo_path]; [os.path.join] of a relative second part puts
    a slash between the two. *)
Definition employee_photo_path (instance : Employee) (filename : string)
  : string :=
  let ext := last (split "." filename) EmptyString in
  let filename := "employee_" ++ employee_id instance ++ "." ++ ext in
  "employee_photos" ++ "/" ++ filename.

(** The predecessor of a date in the calendar, and
    [d - timedelta(days=n)]. *)
Definition prev_day (d : date) : date :=
  if 1 <? day d
  then mkDate (year d) (month d) (day d - 1)
  else if 1 <? month d
       then mkDate (year d) (month d - 1)
              (days_in_month (year d) (month d - 1))
       else mkDate (year d - 1) 12 31.

Definition minus_days (d : date) (n : nat) : date := Nat.iter n prev_day d.

End Directory.

(* ================================================================== *)
(** ** employee/permissions.py: object permissions *)
(* ================================================================== *)

Module ObjectPermissions.
Import Models Permissions.

(** The objects the permission classes are asked about, by the
    attributes [hasattr] finds on them. *)
Inductive Object :=
| employee_object (e : Employee)
    (* an Employee: has [manager] and [user] *)
| department_object (d : Directory.Department)
    (* a Department: has [manager] *)
| employee_record (owner : Employee)
    (* an Attendance, LeaveRequest or EmployeeDocument: has [employee] *)
| other_object.
    (* a Position: has none of them *)

(** [hasattr(obj, 'manager') and obj.manager == employee]; model
    instances are equal when their primary keys are. *)
Definition manager_is (obj : Object) (employee : pk) : bool :=
  match obj with
  | employee_object e =>
      match manager e with Some m => m =? employee | None => false end
  | department_object d =>
      match Directory.department_manager d with
      | Some m => m =? employee
      | None => false
      end
  | _ => false
  end.

(** [hasattr(obj, 'employee') and obj.employee.manager == employee]. *)
Definition employee_manager_is (obj : Object) (employee : pk) : bool :=
  match obj with
  | employee_record owner =>
      match manager owner with Some m => m =? employee | None => false end
  | _ => false
  end.

(** [hasattr(obj, 'user') and obj.user == request.user]. *)
Definition user_is (obj : Object) (u : User) : bool :=
  match obj with
  | employee_object e =>
      match user e with Some x => x =? user_pk u | None => false end
  | _ => false
  end.

(** [hasattr(obj, 'employee') and hasattr(obj.employee, 'user')
    and obj.employee.user == request.user]. *)
Definition employee_user_is (obj : Object) (u : User) : bool :=
  match obj with
  | employee_record owner =>
      match user owner with Some x => x =? user_pk u | None => false end
  | _ => false
  end.

Module IsManagerOrHR.

Definition has_permission (u : User) : bool := is_authenticated u.

Definition has_object_permission (u : User) (obj : Object) : bool :=
  if is_staff u || in_group "HR" u then true
  else if match employee_profile u with
          | Some employee =>
              manager_is obj employee || employee_manager_is obj employee
          | None => false
          end
       then true
       else if user_is obj u then true
            else if employee_user_is obj u then true
                 else false.

End IsManagerOrHR.

Module IsOwnerOrHR.

Definition has_object_permission (u : User) (obj : Object) : bool :=
  if is_staff u || in_group "HR" u then true
  else match obj with
       | employee_object e =>
           match user e with Some x => x =? user_pk u | None => false end
       | _ => false
       end.

End IsOwnerOrHR.

End ObjectPermissions.

(* ================================================================== *)
(** ** employee/admin.py *)
(* ================================================================== *)

Module LeaveRequestAdmin.
Import Datetime Models.


End LeaveRequestAdmin.

(* ================================================================== *)
(** ** Sequences of approve and reject calls *)
(* ================================================================== *)

Module LeaveCalls.
Import Datetime Models.

(** One call of an approve or reject operation, through the API or
    through the pages. *)
Inductive Call :=
| api_approve (user : User) (id : pk)
| api_reject (user : User) (id : pk) (rejection_reason : Field string)
| page_approve (user : User) (id : pk)
| page_reject (user : User) (id : pk) (rejection_reason : option string).

(** The table after one call served at [now], whatever it answers. *)
Definition step (now : datetime) (table : list LeaveRequest) (c : Call)
  : list LeaveRequest :=
  match c with
  | api_approve user id =>
      snd (LeaveRequestViewSet.approve now table user id)
  | api_reject user id rejection_reason =>
      snd (LeaveRequestViewSet.reject now table user id rejection_reason)
  | page_approve user id =>
      snd (Views.leave_request_approve now table user id)
  | page_reject user id rejection_reason =>
      snd (Views.leave_request_reject now table user id rejection_reason)
  end.

(** The table after a sequence of calls, each with the time it is served
    at. *)
Fixpoint run (table : list LeaveRequest) (calls : list (datetime * Call))
  : list LeaveRequest :=
  match calls with
  | [] => table
  | (now, c) :: rest => run (step now table c) rest
  end.

End LeaveCalls.

(* ================================================================== *)
(** ** The dashboards *)
(* ================================================================== *)

Module Dashboard.
Import Datetime Models Directory.

(** The tables the dashboards read, each in its queryset order. *)
Record Tables := mkTables {
  employee_rows : list EmployeeRow;
  departments : list Department;
  leaves : list LeaveRequest
}.

Definition has_status (s : EmployeeStatus) (e : EmployeeRow) : bool :=
  EmployeeStatus_eqb (status (base e)) s.

Definition is_pending (r : LeaveRequest) : bool :=
  LeaveStatus_eqb (leave_status r) pending.

(** [Count('employees', filter=Q(employees__status='active'))] for one
    department. *)
Definition active_count (rows : list EmployeeRow) (d : Department) : nat :=
  List.length
    (filter (fun e => (department (base e) =? department_pk d)
                      && has_status active e)
       rows).

(** [Department.objects.filter(is_active=True).annotate(count=...)
    .values_list('name', 'count')]. *)
Definition by_department (t : Tables) : list (string * nat) :=
  map (fun d => (name d, active_count (employee_rows t) d))
    (filter is_active (departments t)).

(** [Employee.objects.filter(status='active').values('employment_type')
    .annotate(count=Count('id')).values_list('employment_type', 'count')]:
    one pair per employment type that occurs. *)
Definition by_employment_type (t : Tables) : list (string * nat) :=
  let actives := filter (has_status active) (employee_rows t) in
  map (fun k =>
         (k, List.length
               (filter (fun e => String.eqb (employment_type e) k) actives)))
    (nodup string_dec (map employment_type actives)).

(** [Employee.objects.filter(date_joined__gte=thirty_days_ago)]. *)
Definition hired_since (since : date) (rows : list EmployeeRow)
  : list EmployeeRow :=
  filter (fun e => date_leb since (date_joined (base e))) rows.

(** [.values('employee_id', 'first_name', 'last_name', 'date_joined')]. *)
Definition hire_values (e : EmployeeRow) : string * string * string * date :=
  (employee_id (base e), first_name (base e), last_name (base e),
   date_joined (base e)).

(** The [stats] dictionary of [EmployeeViewSet.dashboard_stats]. *)
Record Stats := mkStats {
  total_employees : nat;
  active_employees : nat;
  stats_on_leave : nat;
  total_departments : nat;
  pending_leave_requests : nat;
  employees_by_department : list (string * nat);
  employees_by_employment_type : list (string * nat);
  recent_hires : list (string * string * string * date)
}.

(** [EmployeeViewSet.dashboard_stats]; [today] is
    [timezone.now().date()]. *)
Definition dashboard_stats (today : date) (t : Tables) : Stats :=
  let thirty_days_ago := minus_days today 30 in
  mkStats
    (List.length (employee_rows t))
    (List.length (filter (has_status active) (employee_rows t)))
    (List.length (filter (has_status on_leave) (employee_rows t)))
    (List.length (filter is_active (departments t)))
    (List.length (filter is_pending (leaves t)))
    (by_department t)
    (by_employment_type t)
    (firstn 10
       (map hire_values (hired_since thirty_days_ago (employee_rows t)))).

(** The [context] dictionary of [views.dashboard]. *)
Record Context := mkContext {
  ctx_total_employees : nat;
  ctx_active_employees : nat;
  ctx_on_leave : nat;
  ctx_total_departments : nat;
  ctx_pending_leave_requests : nat;
  ctx_employees_by_dept : list (string * nat);
  ctx_recent_hires : list EmployeeRow;
  ctx_pending_leaves : list LeaveRequest
}.

(** [views.dashboard]. *)
Definition dashboard (today : date) (t : Tables) : Context :=
  let thirty_days_ago := minus_days today 30 in
  mkContext
    (List.length (employee_rows t))
    (List.length (filter (has_status active) (employee_rows t)))
    (List.length (filter (has_status on_leave) (employee_rows t)))
    (List.length (filter is_active (departments t)))
    (List.length (filter is_pending (leaves t)))
    (firstn 5 (by_department t))
    (firstn 5 (hired_since thirty_days_ago (employee_rows t)))
    (firstn 5 (filter is_pending (leaves t))).

(** The sum of the counts of a list of (key, count) pairs. *)
Definition total (pairs : list (string * nat)) : nat :=
  fold_right (fun p n => (snd p + n)%nat) 0%nat pairs.

End Dashboard.

(* ================================================================== *)
(** ** More of what the storage layer guarantees *)
(* ================================================================== *)

Module Integrity.
Import Datetime Models AttendanceManager.


(** The time of day in microseconds since midnight, and the times the
    [time] constructor accepts. *)
Definition microseconds_of (t : time) : Z :=
  ((hour t * 60 + minute t) * 60 + second t) * 1000000 + microsecond t.

Definition valid_time (t : time) : bool :=
  (0 <=? hour t) && (hour t <? 24)
  && (0 <=? minute t) && (minute t <? 60)
  && (0 <=? second t) && (second t <? 60)
  && (0 <=? microsecond t) && (microsecond t <? 1000000).

(** The columns of an attendance row that [bulk_mark] never assigns. *)
Definition untouched_columns (a : Attendance)
  : pk * pk * date * option time * option time * string * datetime :=
  (attendance_pk a, att_employee a, att_date a, check_in a, check_out a,
   att_notes a, att_created_at a).

(** The row [a] is the one row stored for employee [id] on [d], and it
    was last marked with [s] at [now]. *)
Definition marked (now : datetime) (d : date) (s : string) (db : Database)
    (id : pk) (a : Attendance) : Prop :=
  AttendanceViewSet.records_for db id d = [a]
  /\ att_status a = s /\ att_updated_at a = now.

(** A unique column of the employee table. *)
Definition unique_column (column : Employee -> string)
    (objects : list Employee) : Prop :=
  forall a b, In a objects -> In b objects -> column a = column b ->
              employee_pk a = employee_pk b.

End Integrity.

Module Invariants.
Import Datetime Models.


(** The request is one of those [get_queryset] keeps for the user. *)
Definition shown_to (user : User) (r : LeaveRequest) : bool :=
  match employee_profile user with
  | Some profile => leave_employee r =? profile
  | None => true
  end.


(** The request as [approve] or [reject] leaves it when it succeeds. *)
Definition decided (now : datetime) (actor : User) (s : LeaveStatus)
    (text : string) (r : LeaveRequest) : LeaveRequest :=
  mkLeaveRequest (leave_pk r) (leave_employee r) (leave_type r)
    (start_date r) (end_date r) (reason r) s (Some (user_pk actor))
    (Some now) text (leave_created_at r) now.

End Invariants.

(* ================================================================== *)
(** ** Sample records *)
(* ================================================================== *)

Module Sample.
Import Datetime Models.

Definition engineer : Position :=
  mkPosition 1 "Software Engineer" (Some 6000000) (Some 12000000).

Definition employee (id : pk) (code mail : string) : Employee :=
  mkEmployee id code "Ada" "Lovelace" mail 1 engineer active
    (mkDate 2022 1 1) None (Some 8500000) None None None "" 0.

Definition EMP001 : Employee := employee 1 "EMP001" "ada@example.com".
Definition EMP003 : Employee := employee 3 "EMP003" "alan@example.com".


(** An ordinary user that no employee row points at. *)
Definition plain_user : User := mkUser 11 true false [] None.

(** An ordinary user linked to employee row 2. *)
Definition employee_user : User := mkUser 12 true false ["Employee"] (Some 2).

Definition leave (id owner : pk) (s : LeaveStatus) : LeaveRequest :=
  mkLeaveRequest id owner "annual" (mkDate 2024 1 1) (mkDate 2024 1 5)
    "holiday" s None None "" 0 0.

Definition leave_requests : list LeaveRequest :=
  [leave 1 1 pending; leave 2 2 pending; leave 3 2 approved].

(** Tables with employees 1 and 3 and no attendance yet. *)
Definition two_employees : Database := mkDatabase [EMP001; EMP003] [] 0.

(** A candidate whose leaving date precedes its joining date and whose
    salary (10000.00) is below the position's minimum (60000.00). *)
Definition late_and_underpaid : EmployeeData :=
  mkEmployeeData (Some "EMP002") (Some "bob@example.com")
    (Some (mkDate 2024 6 1)) (Some (mkDate 2024 1 1)) (Some 1000000)
    (Some engineer).

(** A candidate with a salary of 0.00 for the same position. *)
Definition zero_salary : EmployeeData :=
  mkEmployeeData (Some "EMP002") (Some "bob@example.com")
    (Some (mkDate 2022 1 1)) None (Some 0) (Some engineer).

(** A candidate with a salary of 10000.00 and ordered dates. *)
Definition underpaid : EmployeeData :=
  mkEmployeeData (Some "EMP002") (Some "bob@example.com")
    (Some (mkDate 2022 1 1)) None (Some 1000000) (Some engineer).

(** A PATCH that sends ['date_left'] alone. *)
Definition date_left_only (d : date)
  : EmployeeCreateUpdateSerializer.ValidatedData :=
  EmployeeCreateUpdateSerializer.mkValidatedData None None None None None
    None None None (Some (Some d)) None None None None.

(** A PATCH that sends ['salary'] alone. *)
Definition salary_only (amount : Decimal)
  : EmployeeCreateUpdateSerializer.ValidatedData :=
  EmployeeCreateUpdateSerializer.mkValidatedData None None None None None
    None None None None (Some (Some amount)) None None None.

(** The request of the termination scenario. *)
Definition resignation : EmployeeViewSet.TerminateData :=
  EmployeeViewSet.mkTerminateData (given "2024-06-01") (given "resignation").

(** Attendance checked in at 17:00 and out at 09:00. *)
Definition out_before_in : AttendanceData :=
  mkAttendanceData (Some (mkTime 17 0 0 0)) (Some (mkTime 9 0 0 0)).

End Sample.

(* ================================================================== *)
(** ** The rules as the specification words them *)
(* ================================================================== *)

Module Spec.
Import Datetime Models Permissions.



(** The date-ordering rule is violated: both dates are set and
    [date_left < date_joined]. *)
Definition violates_date_ordering (data : EmployeeData) : bool :=
  match data_date_left data, data_date_joined data with
  | Some d_left, Some d_joined => date_ltb d_left d_joined
  | _, _ => false
  end.

(** The salary-bounds rule is violated: salary and position are present
    and the salary lies outside [[min_salary, max_salary]], an absent
    bound leaving its side unconstrained. *)
Definition violates_salary_bounds (salary : option Decimal)
    (position : option Position) : bool :=
  match salary, position with
  | Some salary, Some position =>
      match min_salary position with
      | Some m => salary <? m
      | None => false
      end
      || match max_salary position with
         | Some m => m <? salary
         | None => false
         end
  | _, _ => false
  end.

Definition is_salary_error (e : ValidationError) : bool :=
  match e with
  | SalaryBelowMinimum _ | SalaryAboveMaximum _ => true
  | _ => false
  end.

(** Every violated rule is reported, each with an error of its own. *)
Definition reports_every_violation (instance : option Employee)
    (data : EmployeeData) (reported : list ValidationError) : Prop :=
  (violates_date_ordering data = true -> In DateLeftBeforeJoined reported)
  /\ (violates_salary_bounds (data_salary data)
        (EmployeeCreateUpdateSerializer.get_position instance data) = true ->
      existsb is_salary_error reported = true).

(** The check-out rule is violated: both times are given and
    [check_out < check_in]. *)
Definition violates_check_out (data : AttendanceData) : bool :=
  match data_check_out data, data_check_in data with
  | Some t_out, Some t_in => time_ltb t_out t_in
  | _, _ => false
  end.

End Spec.

(* ================================================================== *)
(** * Properties *)
(* ================================================================== *)

(** ** Calendar arithmetic *)

Section DateFacts.
Import Datetime.

Lemma valid_date_inv (d : date) :
  valid_date d = true ->
  1 <= year d <= 9999 /\ 1 <= month d <= 12
  /\ 1 <= day d <= days_in_month (year d) (month d).
Proof.
  unfold valid_date. rewrite !andb_true_iff, !Z.leb_le. lia.
Qed.

Lemma month_cases (m : Z) :
  1 <= m <= 12 ->
  m = 1 \/ m = 2 \/ m = 3 \/ m = 4 \/ m = 5 \/ m = 6 \/ m = 7 \/ m = 8
  \/ m = 9 \/ m = 10 \/ m = 11 \/ m = 12.
Proof. lia. Qed.

Ltac eval_tables y :=
  unfold days_before_month, days_in_month, DAYS_BEFORE_MONTH,
    DAYS_IN_MONTH;
  destruct (is_leap y);
  repeat match goal with
         | |- context [nth ?n ?l ?d] =>
             let v := eval vm_compute in (nth n l d) in
             change (nth n l d) with v
         | |- context [andb ?a ?b] =>
             let v := eval vm_compute in (andb a b) in
             change (andb a b) with v
         end;
  cbv iota.

Ltac each_month m H :=
  let E := fresh "E" in
  destruct (month_cases m H) as
    [E|[E|[E|[E|[E|[E|[E|[E|[E|[E|[E|E]]]]]]]]]]]; subst m.

Lemma days_in_month_bounds (y m : Z) :
  1 <= m <= 12 -> 28 <= days_in_month y m <= 31.
Proof.
  intros H. each_month m H; eval_tables y; lia.
Qed.

Lemma days_before_month_succ (y m : Z) :
  1 <= m <= 11 ->
  days_before_month y (m + 1) = days_before_month y m + days_in_month y m.
Proof.
  intros H. assert (H' : 1 <= m <= 12) by lia.
  each_month m H'; try lia;
    eval_tables y; reflexivity.
Qed.

Lemma days_before_month_mono (y m1 m2 : Z) :
  1 <= m1 -> m1 <= m2 -> m2 <= 12 ->
  days_before_month y m1 <= days_before_month y m2.
Proof.
  intros H1 H12 H2.
  assert (Hn : exists n : nat, m2 = m1 + Z.of_nat n)
    by (exists (Z.to_nat (m2 - m1)); lia).
  destruct Hn as [n ->]. clear H12.
  induction n as [|n IH]; [ cbn; rewrite Z.add_0_r; lia | ].
  assert (Hs : days_before_month y (m1 + Z.of_nat n + 1)
               = days_before_month y (m1 + Z.of_nat n)
                 + days_in_month y (m1 + Z.of_nat n))
    by (apply days_before_month_succ; lia).
  pose proof (days_in_month_bounds y (m1 + Z.of_nat n)).
  replace (m1 + Z.of_nat (S n)) with (m1 + Z.of_nat n + 1) by lia.
  lia.
Qed.

Lemma days_in_year (y m d : Z) :
  1 <= m <= 12 -> 1 <= d <= days_in_month y m ->
  1 <= days_before_month y m + d <= 365 + (if is_leap y then 1 else 0).
Proof.
  intros Hm. each_month m Hm; eval_tables y; lia.
Qed.

Lemma is_leap_spec (y : Z) :
  is_leap y = true <-> y mod 4 = 0 /\ (y mod 100 <> 0 \/ y mod 400 = 0).
Proof.
  unfold is_leap.
  rewrite andb_true_iff, orb_true_iff, negb_true_iff, !Z.eqb_eq, Z.eqb_neq.
  tauto.
Qed.

Lemma days_before_year_succ (y : Z) :
  days_before_year (y + 1)
  = days_before_year y + 365 + (if is_leap y then 1 else 0).
Proof.
  pose proof (is_leap_spec y) as L. unfold days_before_year.
  replace (y + 1 - 1) with y by lia.
  destruct (is_leap y).
  - destruct L as [L _]. specialize (L eq_refl).
    Z.to_euclidean_division_equations. lia.
  - assert (N : ~ (y mod 4 = 0 /\ (y mod 100 <> 0 \/ y mod 400 = 0))).
    { intros C. apply L in C. discriminate. }
    Z.to_euclidean_division_equations. lia.
Qed.

Lemma days_before_year_mono (y1 y2 : Z) :
  y1 <= y2 -> days_before_year y1 <= days_before_year y2.
Proof.
  unfold days_before_year. intros H.
  Z.to_euclidean_division_equations. lia.
Qed.

Lemma toordinal_lt (a b : date) :
  valid_date a = true -> valid_date b = true ->
  date_ltb a b = true -> toordinal a < toordinal b.
Proof.
  intros Va Vb.
  destruct (valid_date_inv a Va) as (Ya & Ma & Da).
  destruct (valid_date_inv b Vb) as (Yb & Mb & Db).
  unfold date_ltb, toordinal.
  repeat first [ rewrite orb_true_iff | rewrite andb_true_iff
               | rewrite Z.ltb_lt | rewrite Z.eqb_eq ].
  intros [Hy | [Ey [Hm | [Em Hd]]]].
  - pose proof (days_in_year _ _ _ Ma Da).
    pose proof (days_in_year _ _ _ Mb Db).
    pose proof (days_before_year_succ (year a)).
    pose proof (days_before_year_mono (year a + 1) (year b)).
    lia.
  - rewrite Ey in *.
    pose proof (days_before_month_succ (year b) (month a)).
    pose proof (days_before_month_mono (year b) (month a + 1) (month b)).
    lia.
  - rewrite Ey, Em in *. lia.
Qed.

Lemma date_ltb_total (a b : date) :
  date_ltb a b = false -> date_ltb b a = false -> a = b.
Proof.
  unfold date_ltb.
  repeat first [ rewrite orb_false_iff | rewrite andb_false_iff
               | rewrite Z.ltb_ge | rewrite Z.eqb_neq ].
  intros H1 H2. destruct a as [ya ma da], b as [yb mb db]; cbn in *.
  assert (ya = yb) by lia. subst.
  assert (ma = mb) by lia. subst.
  f_equal. lia.
Qed.

Lemma toordinal_le (a b : date) :
  valid_date a = true -> valid_date b = true ->
  date_leb a b = true -> toordinal a <= toordinal b.
Proof.
  intros Va Vb. unfold date_leb. rewrite negb_true_iff. intros H.
  destruct (date_ltb a b) eqn:L.
  - pose proof (toordinal_lt a b Va Vb L). lia.
  - rewrite (date_ltb_total a b L H). lia.
Qed.

Lemma toordinal_inj (a b : date) :
  valid_date a = true -> valid_date b = true ->
  toordinal a = toordinal b -> a = b.
Proof.
  intros Va Vb E.
  destruct (date_ltb a b) eqn:L1.
  { pose proof (toordinal_lt a b Va Vb L1). lia. }
  destruct (date_ltb b a) eqn:L2.
  { pose proof (toordinal_lt b a Vb Va L2). lia. }
  now apply date_ltb_total.
Qed.

Lemma next_day_ordinal (d : date) :
  valid_date d = true -> toordinal (next_day d) = toordinal d + 1.
Proof.
  intros V. destruct (valid_date_inv d V) as (Y & M & D).
  unfold next_day, toordinal.
  destruct (Z.ltb_spec (day d) (days_in_month (year d) (month d)));
    [ cbn; lia | ].
  destruct (Z.ltb_spec (month d) 12); cbn.
  - rewrite days_before_month_succ by lia.
    lia.
  - assert (E : month d = 12) by lia. rewrite E in *.
    rewrite days_before_year_succ.
    revert H D. eval_tables (year d); destruct (is_leap (year d + 1)); lia.
Qed.

Lemma last_ordinal_of_year (d : date) :
  valid_date d = true -> toordinal d < days_before_year (year d + 1) + 1.
Proof.
  intros V. destruct (valid_date_inv d V) as (Y & M & D).
  pose proof (days_in_year _ _ _ M D).
  pose proof (days_before_year_succ (year d)).
  unfold toordinal. lia.
Qed.

Lemma next_day_valid (d e : date) :
  valid_date d = true -> valid_date e = true ->
  toordinal d < toordinal e -> valid_date (next_day d) = true.
Proof.
  intros V Ve L. destruct (valid_date_inv d V) as (Y & M & D).
  unfold next_day.
  destruct (Z.ltb_spec (day d) (days_in_month (year d) (month d))).
  { unfold valid_date; cbn [year month day].
    repeat (apply andb_true_intro; split); apply Z.leb_le; lia. }
  destruct (Z.ltb_spec (month d) 12).
  { pose proof (days_in_month_bounds (year d) (month d + 1)).
    unfold valid_date; cbn [year month day].
    repeat (apply andb_true_intro; split); apply Z.leb_le; lia. }
  assert (Y' : year d < 9999).
  { destruct (Z.lt_ge_cases (year d) 9999) as [|G]; [ assumption | ].
    exfalso.
    pose proof (last_ordinal_of_year e Ve) as Le.
    destruct (valid_date_inv e Ve) as (Ye & _ & _).
    pose proof (days_before_year_mono (year e + 1) (year d + 1)).
    pose proof (next_day_ordinal d V) as N. unfold next_day in N.
    destruct (Z.ltb_spec (day d) (days_in_month (year d) (month d)));
      [ lia | ].
    destruct (Z.ltb_spec (month d) 12); [ lia | ].
    unfold toordinal at 1 in N. cbn [year month day] in N.
    change (days_before_month (year d + 1) 1) with 0 in N.
    lia. }
  unfold valid_date; cbn [year month day].
  repeat (apply andb_true_intro; split); apply Z.leb_le; try lia.
  change (days_in_month (year d + 1) 1) with 31. lia.
Qed.

Lemma iter_next_day (s e : date) (n : nat) :
  valid_date s = true -> valid_date e = true ->
  toordinal s + Z.of_nat n <= toordinal e ->
  valid_date (Nat.iter n next_day s) = true
  /\ toordinal (Nat.iter n next_day s) = toordinal s + Z.of_nat n.
Proof.
  intros Vs Ve. induction n as [|n IH]; intros L.
  - cbn. split; [ assumption | lia ].
  - destruct IH as [V O]; [ lia | ].
    change (Nat.iter (S n) next_day s) with (next_day (Nat.iter n next_day s)).
    split.
    + apply (next_day_valid _ e); [ assumption | assumption | lia ].
    + rewrite next_day_ordinal by assumption. lia.
Qed.

End DateFacts.

(** ** Leave requests *)

Section LeaveRequests.
Import Datetime Models.

Lemma LeaveStatus_eqb_eq (a b : LeaveStatus) :
  LeaveStatus_eqb a b = true <-> a = b.
Proof. destruct a, b; cbn; split; congruence. Qed.

(** C10.  For a leave request whose (valid) dates satisfy
    [start_date <= end_date], [total_days] is the number of days from the
    start to the end plus one and counts both endpoints: it is at least
    one, and stepping the calendar [total_days - 1] times from the start
    date lands on the end date.  From 2024-01-01 to 2024-01-05 it is 5.  It
    is read off the two stored dates alone, so it follows every change of
    either of them. *)
Theorem total_days_inclusive (r : LeaveRequest) :
  valid_date (start_date r) = true ->
  valid_date (end_date r) = true ->
  date_leb (start_date r) (end_date r) = true ->
  total_days r = sub_days (end_date r) (start_date r) + 1
  /\ 1 <= total_days r
  /\ Nat.iter (Z.to_nat (total_days r - 1)) next_day (start_date r)
     = end_date r
  /\ (start_date r = mkDate 2024 1 1 -> end_date r = mkDate 2024 1 5 ->
      total_days r = 5)
  /\ (forall d, total_days (set_start_date d r)
                = sub_days (end_date r) d + 1)
  /\ (forall d, total_days (set_end_date d r)
                = sub_days d (start_date r) + 1)
  /\ (forall r', start_date r' = start_date r -> end_date r' = end_date r ->
                 total_days r' = total_days r).
Proof.
  intros Vs Ve Le.
  pose proof (toordinal_le _ _ Vs Ve Le) as Ho.
  unfold total_days, sub_days.
  repeat split; try reflexivity; try lia.
  - replace (toordinal (end_date r) - toordinal (start_date r) + 1 - 1)
      with (toordinal (end_date r) - toordinal (start_date r)) by lia.
    set (n := Z.to_nat (toordinal (end_date r) - toordinal (start_date r))).
    destruct (iter_next_day (start_date r) (end_date r) n Vs Ve) as [V O];
      [ subst n; lia | ].
    apply toordinal_inj; [ assumption | assumption | subst n; lia ].
  - intros -> ->. reflexivity.
  - intros r' -> ->. reflexivity.
Qed.

Lemma total_days_inclusive_witness :
  total_days (Sample.leave 1 1 pending) = 5.
Proof.
  destruct (total_days_inclusive (Sample.leave 1 1 pending)
              eq_refl eq_refl eq_refl) as (_ & _ & _ & E & _).
  exact (E eq_refl eq_refl).
Defined.

End LeaveRequests.

(** ** Looking a leave request up *)

Section LeaveLookup.
Import Datetime Models Invariants.

Lemma LeaveStatus_eqb_neq (a b : LeaveStatus) :
  LeaveStatus_eqb a b = false <-> a <> b.
Proof. destruct a, b; cbn; split; congruence. Qed.

Lemma get_queryset_shown (table : list LeaveRequest) (u : User) :
  LeaveRequestViewSet.get_queryset table u = filter (shown_to u) table.
Proof.
  unfold LeaveRequestViewSet.get_queryset, shown_to.
  destruct (employee_profile u) as [p|]; [ reflexivity | ].
  induction table as [|r table IH]; [ reflexivity | ].
  cbn [filter]. now rewrite <- IH.
Qed.

(** The primary key finds its row, in any part of the table that keeps
    the row, and in no part that drops it. *)
Lemma find_by_pk (f : LeaveRequest -> bool) (table : list LeaveRequest)
    (r : LeaveRequest) :
  NoDup (map leave_pk table) -> In r table ->
  find (fun x => leave_pk x =? leave_pk r) (filter f table)
  = if f r then Some r else None.
Proof.
  induction table as [|x table IH]; [ contradiction | ].
  cbn [map]. intros N I. inversion N as [|? ? Nx N']; subst.
  assert (Fresh : forall y, In y (filter f table) ->
                            leave_pk y <> leave_pk x).
  { intros y Iy E. apply filter_In in Iy. apply Nx. rewrite <- E.
    apply in_map. tauto. }
  destruct I as [-> | I].
  - cbn [filter]. destruct (f r) eqn:F.
    + cbn [find]. now rewrite Z.eqb_refl.
    + destruct (find _ (filter f table)) as [y|] eqn:Y; [ | reflexivity ].
      apply find_some in Y. destruct Y as [Iy E]. apply Z.eqb_eq in E.
      exfalso. now apply (Fresh y Iy).
  - assert (D : leave_pk x <> leave_pk r).
    { intros E. apply Nx. rewrite E. now apply in_map. }
    cbn [filter]. destruct (f x); [ cbn [find] | now apply IH ].
    destruct (Z.eqb_spec (leave_pk x) (leave_pk r)); [ contradiction | ].
    now apply IH.
Qed.

Lemma get_object_by_pk (table : list LeaveRequest) (u : User)
    (r : LeaveRequest) :
  NoDup (map leave_pk table) -> In r table ->
  LeaveRequestViewSet.get_object table u (leave_pk r)
  = if shown_to u r then Some r else None.
Proof.
  intros N I. unfold LeaveRequestViewSet.get_object.
  rewrite get_queryset_shown. now apply find_by_pk.
Qed.

Lemma get_object_or_404_by_pk (table : list LeaveRequest)
    (r : LeaveRequest) :
  NoDup (map leave_pk table) -> In r table ->
  Views.get_object_or_404 table (leave_pk r) = Some r.
Proof.
  intros N I. unfold Views.get_object_or_404.
  pose proof (find_by_pk (fun _ => true) table r N I) as F.
  cbn beta in F. rewrite <- F. f_equal.
  clear. induction table as [|x table IH]; [ reflexivity | ].
  cbn [filter]. now rewrite <- IH.
Qed.

End LeaveLookup.

(** ** Approving and rejecting *)

Section LeaveTransitions.
Import Datetime Models Invariants Spec.




End LeaveTransitions.

(** ** Visibility of leave requests *)

Section LeaveVisibility.
Import Datetime Models Permissions Spec.



End LeaveVisibility.

(** ** Employee validation *)

Section EmployeeValidation.
Import Datetime Models Spec EmployeeCreateUpdateSerializer.

Variable instance : option Employee.

Lemma check_dates_spec (data : EmployeeData) :
  check_dates data
  = if violates_date_ordering data then inl DateLeftBeforeJoined
    else inr tt.
Proof.
  unfold check_dates, violates_date_ordering.
  destruct (data_date_left data), (data_date_joined data); reflexivity.
Qed.

Lemma check_salary_only_salary_errors (data : EmployeeData)
    (e : ValidationError) :
  check_salary instance data = inl e -> is_salary_error e = true.
Proof.
  unfold check_salary.
  destruct (data_salary data) as [salary|]; [ | discriminate ].
  destruct (decimal_truthy salary); [ | discriminate ].
  destruct (get_position instance data) as [p|]; [ | discriminate ].
  destruct (min_salary p) as [lo|], (max_salary p) as [hi|]; cbn;
    repeat match goal with
           | |- context [raise_if ?c _] => destruct c; cbn
           end;
    intros H; inversion H; reflexivity.
Qed.

Lemma validate_unfold (data : EmployeeData) :
  validate instance data
  = if violates_date_ordering data then inl DateLeftBeforeJoined
    else match check_salary instance data with
         | inl e => inl e
         | inr _ => inr data
         end.
Proof.
  unfold validate. rewrite check_dates_spec.
  destruct (violates_date_ordering data); reflexivity.
Qed.

Lemma violates_date_ordering_iff (data : EmployeeData) :
  violates_date_ordering data = true
  <-> exists d_left d_joined,
        data_date_left data = Some d_left
        /\ data_date_joined data = Some d_joined
        /\ date_ltb d_left d_joined = true.
Proof.
  unfold violates_date_ordering. split.
  - destruct (data_date_left data) as [l|]; [ | discriminate ].
    destruct (data_date_joined data) as [j|]; [ | discriminate ].
    intros H. exists l, j. auto.
  - intros (l & j & -> & -> & H). exact H.
Qed.

(** The date-ordering check reads the data it is handed and nothing else:
    with both dates among the data, the serializer raises the
    date-ordering error, and the form's [clean] fails, exactly when
    [date_left < date_joined]; with either date missing from the data
    neither raises it, whatever the stored employee holds.  The form's
    [clean] raises nothing else. *)
Lemma date_ordering_rule (data : EmployeeData) :
  (validate instance data = inl DateLeftBeforeJoined
   <-> exists d_left d_joined,
         data_date_left data = Some d_left
         /\ data_date_joined data = Some d_joined
         /\ date_ltb d_left d_joined = true)
  /\ (is_valid (EmployeeForm.clean data) = false
      <-> exists d_left d_joined,
            data_date_left data = Some d_left
            /\ data_date_joined data = Some d_joined
            /\ date_ltb d_left d_joined = true)
  /\ errors (EmployeeForm.clean data)
     = (if violates_date_ordering data then [DateLeftBeforeJoined] else [])
  /\ (data_date_left data = None \/ data_date_joined data = None ->
      ~ In DateLeftBeforeJoined (errors (validate instance data))
      /\ EmployeeForm.clean data = inr data).
Proof.
  rewrite <- violates_date_ordering_iff.
  assert (F : EmployeeForm.clean data
              = if violates_date_ordering data
                then inl DateLeftBeforeJoined else inr data).
  { unfold EmployeeForm.clean, violates_date_ordering.
    destruct (data_date_left data) as [l|], (data_date_joined data) as [j|];
      try reflexivity.
    cbn. destruct (date_ltb l j); reflexivity. }
  rewrite F, validate_unfold.
  split; [ | split; [ | split ] ].
  - destruct (violates_date_ordering data); [ tauto | ].
    split; [ | discriminate ].
    destruct (check_salary instance data) as [e|] eqn:S; [ | discriminate ].
    intros H. inversion H; subst.
    apply check_salary_only_salary_errors in S. discriminate.
  - destruct (violates_date_ordering data); cbn; split; congruence.
  - destruct (violates_date_ordering data); reflexivity.
  - intros H.
    assert (V : violates_date_ordering data = false).
    { unfold violates_date_ordering.
      destruct H as [-> | ->]; [ reflexivity | ].
      destruct (data_date_left data); reflexivity. }
    rewrite V. split; [ | reflexivity ].
    destruct (check_salary instance data) as [e|] eqn:S; cbn; [ | tauto ].
    intros [C | []]. subst.
    apply check_salary_only_salary_errors in S. discriminate.
Qed.

Lemma check_salary_below (data : EmployeeData) (salary lo : Decimal)
    (p : Position) :
  data_salary data = Some salary -> salary <> 0 ->
  get_position instance data = Some p ->
  min_salary p = Some lo -> lo <> 0 -> salary < lo ->
  check_salary instance data = inl (SalaryBelowMinimum lo).
Proof.
  intros Hs Hz Hp Hlo Hloz Hlt. unfold check_salary, decimal_truthy.
  rewrite Hs, Hp, Hlo.
  destruct (Z.eqb_spec salary 0); [ contradiction | ].
  destruct (Z.eqb_spec lo 0); [ contradiction | ].
  destruct (Z.ltb_spec salary lo); [ reflexivity | lia ].
Qed.

Lemma check_salary_above (data : EmployeeData) (salary hi : Decimal)
    (p : Position) :
  data_salary data = Some salary -> salary <> 0 ->
  get_position instance data = Some p ->
  match min_salary p with Some lo => lo <= salary | None => True end ->
  max_salary p = Some hi -> hi <> 0 -> hi < salary ->
  check_salary instance data = inl (SalaryAboveMaximum hi).
Proof.
  intros Hs Hz Hp Hlo Hhi Hhiz Hlt. unfold check_salary, decimal_truthy.
  rewrite Hs, Hp, Hhi.
  destruct (Z.eqb_spec salary 0); [ contradiction | ].
  destruct (Z.eqb_spec hi 0); [ contradiction | ].
  destruct (Z.ltb_spec hi salary); [ | lia ].
  destruct (min_salary p) as [lo|]; [ | reflexivity ].
  destruct (Z.ltb_spec salary lo); [ lia | ].
  rewrite andb_false_r. reflexivity.
Qed.

(** C3, as stated, fails: for a candidate that violates both the
    date-ordering rule and the salary-bounds rule, the serializer reports
    the date-ordering error alone, and so does the form. *)
Lemma first_violation_hides_the_rest :
  violates_date_ordering Sample.late_and_underpaid = true
  /\ violates_salary_bounds (data_salary Sample.late_and_underpaid)
       (get_position None Sample.late_and_underpaid) = true
  /\ errors (validate None Sample.late_and_underpaid)
     = [DateLeftBeforeJoined]
  /\ errors (EmployeeForm.clean Sample.late_and_underpaid)
     = [DateLeftBeforeJoined]
  /\ ~ reports_every_violation None Sample.late_and_underpaid
        (errors (validate None Sample.late_and_underpaid)).
Proof.
  repeat split; try reflexivity.
  intros [_ H]. specialize (H eq_refl). discriminate H.
Qed.

(** C3, amended.  The serializer's cross-field validator reports at most
    one error.  A violated date-ordering rule is reported alone, whatever
    else is violated.  With the dates in order, a non-zero salary below a
    non-zero minimum is reported alone, whatever the maximum; a non-zero
    salary above a non-zero maximum is reported when the minimum does not
    reject it. *)
Theorem validate_reports_first_violation (data : EmployeeData) :
  (List.length (errors (validate instance data)) <= 1)%nat
  /\ (violates_date_ordering data = true ->
      errors (validate instance data) = [DateLeftBeforeJoined])
  /\ (forall salary p lo,
        violates_date_ordering data = false ->
        data_salary data = Some salary -> salary <> 0 ->
        get_position instance data = Some p ->
        min_salary p = Some lo -> lo <> 0 -> salary < lo ->
        errors (validate instance data) = [SalaryBelowMinimum lo])
  /\ (forall salary p hi,
        violates_date_ordering data = false ->
        data_salary data = Some salary -> salary <> 0 ->
        get_position instance data = Some p ->
        match min_salary p with Some lo => lo <= salary | None => True end ->
        max_salary p = Some hi -> hi <> 0 -> hi < salary ->
        errors (validate instance data) = [SalaryAboveMaximum hi]).
Proof.
  rewrite validate_unfold. split; [ | split; [ | split ] ].
  - destruct (violates_date_ordering data); [ cbn; lia | ].
    destruct (check_salary instance data); cbn; lia.
  - intros ->. reflexivity.
  - intros salary p lo -> Hs Hz Hp Hlo Hloz Hlt.
    rewrite (check_salary_below data salary lo p); auto.
  - intros salary p hi -> Hs Hz Hp Hlo Hhi Hhiz Hlt.
    rewrite (check_salary_above data salary hi p); auto.
Qed.

End EmployeeValidation.

(** ** Updating a stored employee *)

Section PartialUpdate.
Import Datetime Models Spec EmployeeCreateUpdateSerializer.

(** C7 on the code.  Employee EMP001 is stored with the joining date
    2022-01-01.  An update that sends [date_left = 2021-06-01] and no
    joining date passes [validate], whose date check reads the two keys
    from the data sent and never looks at the stored employee, and the
    row saved has its leaving date before its joining date.  The same
    two dates sent together are refused, and the salary check beside it
    does fall back to the stored employee: a salary of 10000.00 sent
    alone is refused against the stored position's minimum.  The same
    holds for every stored employee and every date. *)
Lemma partial_update_skips_date_ordering :
  let sent := Sample.date_left_only (mkDate 2021 6 1) in
  let saved := update 7 Sample.EMP001 sent in
  validate_and_save 7 Sample.EMP001 sent = inr saved
  /\ date_joined saved = mkDate 2022 1 1
  /\ date_left saved = Some (mkDate 2021 6 1)
  /\ date_ltb (mkDate 2021 6 1) (date_joined saved) = true
  /\ validate (Some Sample.EMP001)
       (mkEmployeeData None None (Some (mkDate 2022 1 1))
          (Some (mkDate 2021 6 1)) None None)
     = inl DateLeftBeforeJoined
  /\ validate_and_save 7 Sample.EMP001 (Sample.salary_only 1000000)
     = inl (SalaryBelowMinimum 6000000)
  /\ (forall now e d,
        validate_and_save now e (Sample.date_left_only d)
        = inr (update now e (Sample.date_left_only d))
        /\ date_left (update now e (Sample.date_left_only d)) = Some d
        /\ date_joined (update now e (Sample.date_left_only d))
           = date_joined e).
Proof.
  repeat split.
Qed.

End PartialUpdate.

(** ** Salary bounds *)

Section SalaryBounds.
Import Datetime Models Spec EmployeeCreateUpdateSerializer.

(** With a non-zero salary and non-zero bounds the salary block raises
    exactly when the salary lies outside the position's bounds. *)
Lemma check_salary_nonzero (instance : option Employee)
    (data : EmployeeData) (salary : Decimal) (p : Position) :
  data_salary data = Some salary -> salary <> 0 ->
  get_position instance data = Some p ->
  min_salary p <> Some 0 -> max_salary p <> Some 0 ->
  is_valid (check_salary instance data)
  = negb (violates_salary_bounds (Some salary) (Some p)).
Proof.
  intros Hs Hz Hp Hlo Hhi.
  unfold check_salary, violates_salary_bounds, decimal_truthy.
  rewrite Hs, Hp.
  destruct (Z.eqb_spec salary 0); [ contradiction | ].
  destruct (min_salary p) as [lo|], (max_salary p) as [hi|]; cbn;
    repeat match goal with
           | |- context [?x =? 0] =>
               destruct (Z.eqb_spec x 0);
                 [ subst;
                   match goal with
                   | H : _ <> _ |- _ => now elim H
                   end
                 | ]
           end; cbn;
    repeat match goal with
           | |- context [?x <? ?y] => destruct (Z.ltb_spec x y); cbn
           end;
    reflexivity.
Qed.

(** C6 on the code.  A salary of 0.00 for a position whose bounds are
    60000.00 and 120000.00 lies outside the bounds and yet passes the
    serializer, where 10000.00 is rejected; the form's [clean] accepts
    both, since it never looks at the salary. *)
Lemma zero_salary_escapes_bounds :
  violates_salary_bounds (data_salary Sample.zero_salary)
    (get_position None Sample.zero_salary) = true
  /\ validate None Sample.zero_salary = inr Sample.zero_salary
  /\ validate None Sample.underpaid = inl (SalaryBelowMinimum 6000000)
  /\ EmployeeForm.clean Sample.underpaid = inr Sample.underpaid.
Proof. repeat split. Qed.

End SalaryBounds.

(** ** Attendance validation *)

Section AttendanceValidation.
Import Datetime Models Spec.

Lemma attendance_serializer_rule (data : AttendanceData) :
  AttendanceSerializer.validate data
  = if violates_check_out data then inl CheckOutBeforeCheckIn
    else inr data.
Proof.
  unfold AttendanceSerializer.validate, violates_check_out.
  destruct (data_check_out data) as [o|], (data_check_in data) as [i|];
    try reflexivity.
  cbn. destruct (time_ltb o i); reflexivity.
Qed.

(** C9 on the code.  A check-out at 09:00 before a check-in at 17:00 is
    rejected by the serializer and accepted by the attendance form. *)
Lemma attendance_form_skips_time_check :
  violates_check_out Sample.out_before_in = true
  /\ AttendanceSerializer.validate Sample.out_before_in
     = inl CheckOutBeforeCheckIn
  /\ AttendanceForm.clean Sample.out_before_in = inr Sample.out_before_in.
Proof. repeat split. Qed.

End AttendanceValidation.

(** ** Termination *)

Section Termination.
Import Datetime Models EmployeeViewSet.

Lemma prefix_app (s t : string) : String.prefix s (s ++ t) = true.
Proof.
  induction s as [|c s IH]; cbn.
  - destruct t; reflexivity.
  - destruct (ascii_dec c c); [ exact IH | congruence ].
Qed.

Lemma find_write_employee (obj : Employee) (table : list Employee) :
  (exists x, In x table /\ employee_pk x = employee_pk obj) ->
  get_object (write_employee obj table) (employee_pk obj) = Some obj.
Proof.
  unfold get_object, write_employee. intros (x & I & E).
  induction table as [|y table IH]; [ contradiction | ].
  cbn [map find].
  destruct (Z.eqb_spec (employee_pk y) (employee_pk obj)) as [Ey | Ny].
  - rewrite Z.eqb_refl. reflexivity.
  - destruct (Z.eqb_spec (employee_pk y) (employee_pk obj));
      [ contradiction | ].
    apply IH. destruct I as [-> | I]; [ contradiction | assumption ].
Qed.

Lemma write_employee_pks (obj : Employee) (table : list Employee) :
  map employee_pk (write_employee obj table) = map employee_pk table.
Proof.
  unfold write_employee. rewrite map_map. apply map_ext. intros x.
  destruct (Z.eqb_spec (employee_pk x) (employee_pk obj)); congruence.
Qed.

Lemma get_object_found (table : list Employee) (id : pk) (e : Employee) :
  get_object table id = Some e -> In e table /\ employee_pk e = id.
Proof.
  unfold get_object. intros F. apply find_some in F.
  destruct F as [I E]. apply Z.eqb_eq in E. auto.
Qed.

(** What [years_of_service] makes of the object [terminate] holds: a
    text that is not empty raises, anything else counts as on a stored
    row. *)
Lemma years_of_service_in_memory (joined today : date) (v : DateLeft) :
  EmployeeViewSet.years_of_service joined v today
  = match v with
    | is_text raw =>
        if String.eqb raw "" then inr (sub_days today joined / 365)
        else inl TypeError
    | is_none => inr (sub_days today joined / 365)
    | is_date d => inr (sub_days d joined / 365)
    end.
Proof.
  unfold EmployeeViewSet.years_of_service, truthy.
  destruct v as [|raw|d]; try reflexivity.
  destruct (String.eqb raw ""); reflexivity.
Qed.

(** A call whose date [save()] accepts: the row is written, and the call
    answers or raises as [years_of_service] does on the object held. *)
Lemma terminate_saves (to_python : string -> option date)
    (today : date) (now : datetime) (table : list Employee) (id : pk)
    (data : TerminateData) (e : Employee) (stored : option date) :
  get_object table id = Some e ->
  column to_python (date_left_of today data) = Some stored ->
  exists e',
    snd (terminate to_python today now table id data)
    = write_employee e' table
    /\ get_object (write_employee e' table) id = Some e'
    /\ fst (terminate to_python today now table id data)
       = match EmployeeViewSet.years_of_service (date_joined e)
                 (date_left_of today data) today with
         | inl exn => inl exn
         | inr years =>
             inr (Some (mkResponse (data_body (mkEmployeeDetail e' years))
                          HTTP_200_OK))
         end
    /\ status e' = terminated
    /\ date_left e' = stored
    /\ notes e' = notes e ++ appended today data
    /\ updated_at e' = now
    /\ (employee_pk e', employee_id e', first_name e', last_name e',
        email e')
       = (employee_pk e, employee_id e, first_name e, last_name e, email e)
    /\ (department e', position e', date_joined e', salary e', manager e',
        user e', created_by e')
       = (department e, position e, date_joined e, salary e, manager e,
          user e, created_by e).
Proof.
  intros G C. destruct (get_object_found _ _ _ G) as [I E]. subst id.
  unfold terminate. rewrite G. fold (date_left_of today data).
  rewrite C. cbn [date_joined save_employee set_date_left set_notes
                  set_status].
  eexists. split; [ | split; [ | split ] ].
  - destruct (EmployeeViewSet.years_of_service _ _ _); reflexivity.
  - apply (find_write_employee
             (mkEmployee (employee_pk e) _ _ _ _ _ _ _ _ _ _ _ _ _ _ _)).
    exists e. auto.
  - destruct (EmployeeViewSet.years_of_service _ _ _); reflexivity.
  - cbn. repeat split.
Qed.

(** A call whose date text [save()] refuses raises and writes nothing. *)
Lemma terminate_refused (to_python : string -> option date)
    (today : date) (now : datetime) (table : list Employee) (id : pk)
    (data : TerminateData) (e : Employee) :
  get_object table id = Some e ->
  column to_python (date_left_of today data) = None ->
  terminate to_python today now table id data = (inl InvalidDate, table).
Proof.
  intros G C. unfold terminate. rewrite G.
  fold (date_left_of today data). rewrite C. reflexivity.
Qed.

(** C8 on the code.  Employee EMP001 is stored, joined on 2022-01-01,
    and [terminate] is called with [date_left = "2024-06-01"] and
    [reason = "resignation"].  Whatever [save()] makes of the text, the
    call does not answer: when the text is read as the date 2024-06-01
    the row is saved as terminated with that leaving date and the two
    lines appended to the notes, and then [serializer.data] raises
    [TypeError], because [years_of_service] subtracts a date from the
    text still held by the object; when the text is refused, [save()]
    raises and nothing is written.  The same call without the date
    answers 200. *)
Lemma terminate_raises_when_a_date_is_sent
    (to_python : string -> option date) (today : date) (now : datetime) :
  let table := [Sample.EMP001] in
  let r := terminate to_python today now table 1 Sample.resignation in
  (forall answer, fst r <> inr answer)
  /\ (to_python "2024-06-01" = Some (mkDate 2024 6 1) ->
      fst r = inl TypeError
      /\ exists e',
           snd r = [e']
           /\ status e' = terminated
           /\ date_left e' = Some (mkDate 2024 6 1)
           /\ notes e'
              = notes Sample.EMP001 ++ LF ++ LF
                ++ "Termination Date: 2024-06-01" ++ LF
                ++ "Reason: resignation")
  /\ (to_python "2024-06-01" = None -> r = (inl InvalidDate, table))
  /\ exists e' years,
       terminate to_python today now table 1
         (mkTerminateData missing (given "resignation"))
       = (inr (Some (mkResponse (data_body (mkEmployeeDetail e' years))
                       HTTP_200_OK)),
          [e'])
       /\ status e' = terminated
       /\ date_left e' = Some today.
Proof.
  intros table r. subst r table. unfold terminate. cbn.
  split; [ | split; [ | split ] ].
  - intros answer. destruct (to_python "2024-06-01"); discriminate.
  - intros ->. cbn. split; [ reflexivity | ].
    eexists. split; [ reflexivity | ]. repeat split.
  - intros ->. reflexivity.
  - eexists. eexists. split; [ reflexivity | ]. split; reflexivity.
Qed.

End Termination.

(** ** Attendance *)

Section AttendanceUpsert.
Import Datetime Models AttendanceManager AttendanceViewSet.

Lemma date_eqb_eq (a b : date) : date_eqb a b = true <-> a = b.
Proof.
  unfold date_eqb. rewrite !andb_true_iff, !Z.eqb_eq.
  destruct a, b; cbn. split.
  - intros [[-> ->] ->]. reflexivity.
  - intros E. inversion E. auto.
Qed.

Lemma matches_iff (emp_id : pk) (d : date) (a : Attendance) :
  matches emp_id d a = true <-> att_employee a = emp_id /\ att_date a = d.
Proof.
  unfold matches. rewrite andb_true_iff, Z.eqb_eq, date_eqb_eq. tauto.
Qed.

Lemma matches_with_status (emp_id : pk) (d : date) (s : string)
    (now : datetime) (a : Attendance) :
  matches emp_id d (with_status s now a) = matches emp_id d a.
Proof. reflexivity. Qed.

Lemma update_row_pks (obj : Attendance) (rows : list Attendance) :
  map attendance_pk (update_row obj rows) = map attendance_pk rows.
Proof.
  unfold update_row. induction rows as [|a rows IH]; [ reflexivity | ].
  cbn [map]. rewrite IH. f_equal.
  destruct (Z.eqb_spec (attendance_pk a) (attendance_pk obj));
    [ symmetry; assumption | reflexivity ].
Qed.

Lemma pk_determines_row (rows : list Attendance) (a b : Attendance) :
  NoDup (map attendance_pk rows) -> In a rows -> In b rows ->
  attendance_pk a = attendance_pk b -> a = b.
Proof.
  induction rows as [|x rows IH]; cbn; [ tauto | ].
  intros N Ia Ib E. inversion N as [|? ? Nx N']; subst.
  destruct Ia as [-> | Ia], Ib as [-> | Ib].
  - reflexivity.
  - exfalso. apply Nx. rewrite E. now apply in_map.
  - exfalso. apply Nx. rewrite <- E. now apply in_map.
  - now apply IH.
Qed.

Lemma filter_map_commute {A : Type} (f : A -> bool) (g : A -> A)
    (l : list A) :
  (forall a, In a l -> f (g a) = f a) ->
  filter f (map g l) = map g (filter f l).
Proof.
  induction l as [|a l IH]; intros H; [ reflexivity | ].
  cbn. rewrite (H a (or_introl eq_refl)).
  rewrite IH by (intros; apply H; now right).
  destruct (f a); reflexivity.
Qed.

(** Saving a fetched row with a new status moves no row to another key. *)
Lemma filter_update_row (rows : list Attendance) (obj : Attendance)
    (s : string) (now : datetime) (emp_id : pk) (d : date) :
  NoDup (map attendance_pk rows) -> In obj rows ->
  filter (matches emp_id d) (update_row (with_status s now obj) rows)
  = map (fun a => if attendance_pk a =? attendance_pk obj
                  then with_status s now obj else a)
      (filter (matches emp_id d) rows).
Proof.
  intros N I. unfold update_row. cbn [with_status attendance_pk].
  apply filter_map_commute. intros a Ia.
  destruct (Z.eqb_spec (attendance_pk a) (attendance_pk obj)) as [E|];
    [ | reflexivity ].
  rewrite (pk_determines_row rows a obj N Ia I E). reflexivity.
Qed.

Lemma filter_singleton_in {A : Type} (f : A -> bool) (l : list A) (x : A) :
  filter f l = [x] -> In x l /\ f x = true.
Proof.
  intros E. apply filter_In. rewrite E. now left.
Qed.

(** The outcome of [update_or_create] by the number of rows that match,
    under the table's constraints. *)
Lemma update_or_create_cases (now : datetime) (db : Database) (emp_id : pk)
    (d : date) (s : string) :
  Constraints.hold db ->
  let r := update_or_create now db emp_id d (Some s) in
  Constraints.hold (snd r)
  /\ employees (snd r) = employees db
  /\ ((fst r = inl IntegrityError /\ snd r = db
       /\ employee_exists db emp_id = false)
      \/ (exists obj created,
            fst r = inr (obj, created)
            /\ filter (matches emp_id d) (attendance (snd r)) = [obj]
            /\ att_status obj = s)).
Proof.
  intros (Npk & Seq & Uniq). unfold update_or_create.
  pose proof (Uniq emp_id d) as U.
  destruct (filter (matches emp_id d) (attendance db))
    as [|obj [|obj2 rest]] eqn:F; [ | | cbn in U; lia ].
  - destruct (employee_exists db emp_id) eqn:Ex; cbn [fst snd].
    2:{ split; [ repeat split; assumption | ]. split; [ reflexivity | ].
        left. auto. }
    split; [ | split; [ reflexivity | ] ].
    + unfold Constraints.hold, Constraints.primary_key_unique,
        Constraints.sequence_ahead, Constraints.unique_together.
      cbn [attendance attendance_seq]. repeat split.
      * rewrite map_app. cbn [map attendance_pk].
        apply NoDup_app; repeat split.
        -- assumption.
        -- constructor; [ intros [] | constructor ].
        -- intros x Ix [<- | []]. apply in_map_iff in Ix.
           destruct Ix as (a & Ea & Ia). specialize (Seq a Ia). lia.
      * intros a Ia. apply in_app_or in Ia. destruct Ia as [Ia | [<- | []]].
        -- specialize (Seq a Ia). lia.
        -- cbn. lia.
      * intros e' d'. rewrite filter_app, length_app. cbn [filter].
        destruct (matches e' d' _) eqn:M; cbn [List.length].
        -- apply matches_iff in M. cbn in M. destruct M as [<- <-].
           rewrite F. cbn. lia.
        -- specialize (Uniq e' d'). lia.
    + right. eexists. exists true. split; [ reflexivity | ].
      cbn [attendance]. rewrite filter_app, F. cbn [filter].
      replace (matches emp_id d _) with true; [ split; reflexivity | ].
      symmetry. apply matches_iff. cbn. auto.
  - destruct (filter_singleton_in _ _ _ F) as [I M]. cbn [fst snd].
    split; [ | split; [ reflexivity | ] ].
    + unfold Constraints.hold, Constraints.primary_key_unique,
        Constraints.sequence_ahead, Constraints.unique_together.
      cbn [attendance attendance_seq]. repeat split.
      * rewrite update_row_pks. assumption.
      * intros a Ia. apply (in_map attendance_pk) in Ia.
        rewrite update_row_pks in Ia. apply in_map_iff in Ia.
        destruct Ia as (b & <- & Ib). now apply Seq.
      * intros e' d'. rewrite filter_update_row by assumption.
        rewrite length_map. apply Uniq.
    + right. eexists. exists false. split; [ reflexivity | ].
      cbn [attendance]. rewrite filter_update_row by assumption.
      rewrite F. cbn [map]. rewrite Z.eqb_refl. split; reflexivity.
Qed.

Lemma update_or_create_holds (now : datetime) (db : Database) (emp_id : pk)
    (d : date) (s : string) :
  Constraints.hold db ->
  Constraints.hold (snd (update_or_create now db emp_id d (Some s))).
Proof. intros H. apply (update_or_create_cases now db emp_id d s H). Qed.

Lemma mark_each_holds (now : datetime) (d : date) (s : string)
    (ids : list pk) :
  forall (db : Database) (acc : list Attendance),
    Constraints.hold db ->
    Constraints.hold (snd (mark_each now db d (Some s) ids acc)).
Proof.
  induction ids as [|emp_id ids IH]; intros db acc H; [ exact H | ].
  cbn [mark_each].
  pose proof (update_or_create_holds now db emp_id d s H) as H'.
  destruct (update_or_create now db emp_id d (Some s)) as [[exn | [obj c]] db'];
    cbn [snd] in *; [ exact H' | now apply IH ].
Qed.

(** With [None] for the status nothing is written, and under the
    constraints what is raised is the integrity error. *)
Lemma update_or_create_null (now : datetime) (db : Database) (emp_id : pk)
    (d : date) :
  exists exn,
    update_or_create now db emp_id d None = (inl exn, db)
    /\ (Constraints.hold db -> exn = IntegrityError).
Proof.
  unfold update_or_create.
  destruct (filter (matches emp_id d) (attendance db))
    as [|obj [|obj2 rest]] eqn:F; eexists;
    (split; [ reflexivity | ]); try reflexivity.
  intros (_ & _ & Uniq). specialize (Uniq emp_id d). rewrite F in Uniq.
  cbn in Uniq. lia.
Qed.

Lemma mark_each_null (now : datetime) (db : Database) (d : date)
    (x : pk) (ids : list pk) (acc : list Attendance) :
  exists exn,
    mark_each now db d None (x :: ids) acc = (inl exn, db)
    /\ (Constraints.hold db -> exn = IntegrityError).
Proof.
  cbn [mark_each].
  destruct (update_or_create_null now db x d) as (exn & -> & R).
  exists exn. auto.
Qed.

Lemma bulk_mark_holds (now : datetime) (db : Database)
    (data : BulkMarkData) :
  Constraints.hold db -> Constraints.hold (snd (bulk_mark now db data)).
Proof.
  intros H. unfold bulk_mark.
  destruct (req_date data) as [d|]; [ | exact H ].
  destruct (req_employee_ids data) as [|emp_id ids] eqn:E; [ exact H | ].
  destruct (Request.get (req_status data) "present") as [s|].
  - pose proof (mark_each_holds now d s (emp_id :: ids) db [] H) as H'.
    destruct (mark_each _ _ _ _ _ _) as [[exn | records] db'];
      exact H'.
  - destruct (mark_each_null now db d emp_id ids []) as (exn & -> & _).
    exact H.
Qed.

Lemma run_holds (calls : list (datetime * BulkMarkData)) :
  forall db, Constraints.hold db -> Constraints.hold (run db calls).
Proof.
  induction calls as [|[now data] calls IH]; intros db H; [ exact H | ].
  cbn [run]. apply IH. now apply bulk_mark_holds.
Qed.

Lemma empty_table_holds (stored : list Employee) :
  Constraints.hold (mkDatabase stored [] 0).
Proof.
  repeat split.
  - constructor.
  - intros a [].
  - intros emp_id d. cbn. lia.
Qed.

(** One mark of a stored employee: the call answers 201 with the one row
    now stored for the key, which carries the status given. *)
Lemma bulk_mark_one (now : datetime) (db : Database) (emp_id : pk)
    (d : date) (s : string) :
  Constraints.hold db -> employee_exists db emp_id = true ->
  let r := bulk_mark now db (mkBulkMarkData (Some d) [emp_id] (given s)) in
  exists obj,
    fst r = inr (mkResponse (data_body [obj]) HTTP_201_CREATED)
    /\ records_for (snd r) emp_id d = [obj]
    /\ att_status obj = s
    /\ Constraints.hold (snd r)
    /\ employee_exists (snd r) emp_id = true.
Proof.
  intros H Ex. unfold bulk_mark, records_for.
  cbn [req_date req_employee_ids req_status mark_each Request.get].
  destruct (update_or_create_cases now db emp_id d s H)
    as (H' & Emp & [(_ & _ & No) | (obj & created & R & F & S)]);
    [ congruence | ].
  destruct (update_or_create now db emp_id d (Some s)) as [res db'].
  cbn [fst snd] in *. subst res. cbn [app fst snd].
  exists obj. unfold employee_exists in *. rewrite Emp. auto.
Qed.

(** C4.  On tables that satisfy the storage constraints, marking a stored
    employee for a date with one status and then with another leaves
    exactly one attendance row for that employee and date, and it carries
    the second status; and after any sequence of [bulk_mark] calls, on
    such tables or on an empty attendance table, every (employee, date)
    key has at most one row. *)
Theorem attendance_upsert_last_write_wins
    (db : Database) (t1 t2 : datetime) (emp_id : pk) (d : date)
    (s1 s2 : string) :
  Constraints.hold db ->
  employee_exists db emp_id = true ->
  let db1 :=
    snd (bulk_mark t1 db (mkBulkMarkData (Some d) [emp_id] (given s1))) in
  let r2 := bulk_mark t2 db1 (mkBulkMarkData (Some d) [emp_id] (given s2)) in
  (exists obj,
     records_for (snd r2) emp_id d = [obj]
     /\ att_status obj = s2
     /\ fst r2 = inr (mkResponse (data_body [obj]) HTTP_201_CREATED))
  /\ (forall calls emp_id' d',
        (List.length (records_for (run db calls) emp_id' d') <= 1)%nat)
  /\ (forall stored calls emp_id' d',
        (List.length
           (records_for (run (mkDatabase stored [] 0%Z) calls) emp_id' d')
         <= 1)%nat).
Proof.
  intros H Ex db1 r2. split; [ | split ].
  - destruct (bulk_mark_one t1 db emp_id d s1 H Ex)
      as (obj1 & _ & _ & _ & H1 & Ex1).
    fold db1 in H1, Ex1.
    destruct (bulk_mark_one t2 db1 emp_id d s2 H1 Ex1)
      as (obj & R & F & S & _).
    fold r2 in R, F. exists obj. auto.
  - intros calls emp_id' d'.
    destruct (run_holds calls db H) as (_ & _ & U). apply U.
  - intros stored calls emp_id' d'.
    destruct (run_holds calls _ (empty_table_holds stored)) as (_ & _ & U).
    apply U.
Qed.

Lemma attendance_upsert_last_write_wins_witness :
  exists obj,
    records_for
      (snd (bulk_mark 2
              (snd (bulk_mark 1 Sample.two_employees
                      (mkBulkMarkData (Some (mkDate 2024 1 1)) [1]
                         (given "present"))))
              (mkBulkMarkData (Some (mkDate 2024 1 1)) [1] (given "late"))))
      1 (mkDate 2024 1 1)
    = [obj]
    /\ att_status obj = "late".
Proof.
  destruct (attendance_upsert_last_write_wins Sample.two_employees 1 2 1
              (mkDate 2024 1 1) "present" "late"
              (empty_table_holds _) eq_refl)
    as [(obj & F & S & _) _].
  exists obj. split; [ exact F | exact S ].
Defined.

(** C5 on the code.  With employees 1 and 3 stored, marking the
    identifiers 1, 2, 3 raises at 2: the row for 1 is written, and
    employee 3, although stored, is never marked. *)
Lemma bulk_mark_aborts_at_unknown_employee :
  let d := mkDate 2024 1 1 in
  let r :=
    bulk_mark 1 Sample.two_employees
      (mkBulkMarkData (Some d) [1; 2; 3] (given "present")) in
  employee_exists Sample.two_employees 3 = true
  /\ fst r = inl IntegrityError
  /\ List.length (records_for (snd r) 1 d) = 1%nat
  /\ records_for (snd r) 3 d = [].
Proof. repeat split. Qed.

End AttendanceUpsert.

(** ** Uniqueness, leave dates and write permission *)

Section OtherRules.
Import Datetime Models Permissions Spec.

Lemma exists_other_iff (column : Employee -> string)
    (objects : list Employee) (instance : option Employee)
    (value : string) :
  exists_other column objects instance value = true
  <-> exists e, In e objects /\ column e = value
                /\ (forall i, instance = Some i ->
                              employee_pk e <> employee_pk i).
Proof.
  unfold exists_other. rewrite existsb_exists. split.
  - intros (e & I & H). apply andb_true_iff in H. destruct H as [C N].
    exists e. split; [ assumption | ]. split; [ now apply String.eqb_eq | ].
    intros i ->. apply negb_true_iff in N. now apply Z.eqb_neq.
  - intros (e & I & C & N). exists e. split; [ assumption | ].
    apply andb_true_iff. split; [ now apply String.eqb_eq | ].
    apply negb_true_iff. destruct instance as [i|]; [ | reflexivity ].
    apply Z.eqb_neq. now apply N.
Qed.

(** The e-mail validators of the serializer and of the form raise exactly
    when another stored employee has the address. *)
Lemma email_must_be_unique (objects : list Employee)
    (instance : option Employee) (data : EmployeeData) (value : string) :
  data_email data = Some value ->
  (EmployeeCreateUpdateSerializer.validate_email objects instance value
   = inl EmailExists
   <-> exists_other email objects instance value = true)
  /\ (EmployeeForm.clean_email objects instance data = inl EmailExists
      <-> exists_other email objects instance value = true).
Proof.
  intros E.
  unfold EmployeeCreateUpdateSerializer.validate_email,
    EmployeeForm.clean_email.
  rewrite E. destruct (exists_other email objects instance value); cbn;
    split; split; congruence.
Qed.

(** The leave-request validators raise exactly when both dates are given
    and the end date precedes the start date. *)
Lemma leave_dates_rule (data : LeaveData) :
  let violated :=
    match data_end_date data, data_start_date data with
    | Some e, Some s => date_ltb e s
    | _, _ => false
    end in
  LeaveRequestSerializer.validate data
  = (if violated then inl EndBeforeStart else inr data)
  /\ LeaveRequestForm.clean data
     = (if violated then inl EndBeforeStart else inr data).
Proof.
  unfold LeaveRequestSerializer.validate, LeaveRequestForm.clean.
  destruct (data_end_date data) as [e|], (data_start_date data) as [s|];
    cbn; try (split; reflexivity).
  destruct (date_ltb e s); split; reflexivity.
Qed.

(** [IsHROrReadOnly]: reading needs an authenticated user, writing needs
    the elevated role as well. *)
Lemma write_needs_elevated_role (method : string) (u : User) :
  has_permission method u = true ->
  is_authenticated u = true
  /\ (In method SAFE_METHODS \/ is_hr u = true).
Proof.
  unfold has_permission, is_hr.
  destruct (existsb (String.eqb method) SAFE_METHODS) eqn:S.
  - intros ->. split; [ reflexivity | left ].
    apply existsb_exists in S. destruct S as (m & I & E).
    apply String.eqb_eq in E. now subst.
  - intros H. apply andb_true_iff in H. tauto.
Qed.

Example isoformat_2024_06_01 : isoformat (mkDate 2024 6 1) = "2024-06-01".
Proof. reflexivity. Qed.

End OtherRules.

(* ================================================================== *)
(** * Further properties *)
(* ================================================================== *)

(** ** The leave-request actions on the stored table *)

Section LeaveActions.
Import Datetime Models Invariants LeaveRequestViewSet Views.

Lemma in_write (obj x : LeaveRequest) (table : list LeaveRequest) :
  In x (write obj table) ->
  x = obj \/ (In x table /\ leave_pk x <> leave_pk obj).
Proof.
  unfold write. rewrite in_map_iff. intros (y & E & I).
  destruct (Z.eqb_spec (leave_pk y) (leave_pk obj)); subst; auto.
Qed.

Lemma write_keeps (obj x : LeaveRequest) (table : list LeaveRequest) :
  In x table -> leave_pk x <> leave_pk obj -> In x (write obj table).
Proof.
  intros I D. unfold write. apply in_map_iff. exists x.
  split; [ | assumption ].
  destruct (Z.eqb_spec (leave_pk x) (leave_pk obj)); [ contradiction | ].
  reflexivity.
Qed.

Lemma write_pks (obj : LeaveRequest) (table : list LeaveRequest) :
  map leave_pk (write obj table) = map leave_pk table.
Proof.
  unfold write. rewrite map_map. apply map_ext. intros x.
  destruct (Z.eqb_spec (leave_pk x) (leave_pk obj)); congruence.
Qed.

Lemma find_write_same (obj : LeaveRequest) (table : list LeaveRequest) :
  (exists x, In x table /\ leave_pk x = leave_pk obj) ->
  get_object_or_404 (write obj table) (leave_pk obj) = Some obj.
Proof.
  unfold get_object_or_404, write. intros (x & I & E).
  induction table as [|y table IH]; [ contradiction | ].
  cbn [map find].
  destruct (Z.eqb_spec (leave_pk y) (leave_pk obj)) as [Ey | Ny].
  - rewrite Z.eqb_refl. reflexivity.
  - destruct (Z.eqb_spec (leave_pk y) (leave_pk obj)); [ contradiction | ].
    apply IH. destruct I as [-> | I]; [ contradiction | assumption ].
Qed.

Lemma find_write_other (obj : LeaveRequest) (table : list LeaveRequest)
    (id : pk) :
  id <> leave_pk obj ->
  get_object_or_404 (write obj table) id = get_object_or_404 table id.
Proof.
  unfold get_object_or_404, write. intros N.
  induction table as [|y table IH]; [ reflexivity | ].
  cbn [map find].
  destruct (Z.eqb_spec (leave_pk y) (leave_pk obj)) as [Ey | Ny].
  - destruct (Z.eqb_spec (leave_pk obj) id); [ congruence | ].
    destruct (Z.eqb_spec (leave_pk y) id); [ congruence | ]. exact IH.
  - destruct (leave_pk y =? id); [ reflexivity | exact IH ].
Qed.

Lemma get_object_some (table : list LeaveRequest) (u : User) (id : pk)
    (r : LeaveRequest) :
  get_object table u id = Some r ->
  In r table /\ leave_pk r = id
  /\ (forall p, employee_profile u = Some p -> leave_employee r = p).
Proof.
  unfold get_object, get_queryset. intros F.
  apply find_some in F. destruct F as [I E]. apply Z.eqb_eq in E.
  destruct (employee_profile u) as [p|].
  - apply filter_In in I. destruct I as [I O]. apply Z.eqb_eq in O.
    repeat split; try assumption. intros q Q. congruence.
  - repeat split; try assumption. discriminate.
Qed.

Lemma get_object_or_404_some (table : list LeaveRequest) (id : pk)
    (r : LeaveRequest) :
  get_object_or_404 table id = Some r -> In r table /\ leave_pk r = id.
Proof.
  unfold get_object_or_404. intros F. apply find_some in F.
  destruct F as [I E]. apply Z.eqb_eq in E. auto.
Qed.

Lemma api_lookup_hidden (table : list LeaveRequest) (u : User) (p id : pk) :
  employee_profile u = Some p ->
  (forall r, In r table -> leave_pk r = id -> leave_employee r <> p) ->
  get_object table u id = None.
Proof.
  intros P Other.
  destruct (get_object table u id) as [r|] eqn:G; [ | reflexivity ].
  destruct (get_object_some _ _ _ _ G) as (I & E & O).
  exfalso. apply (Other r I E). now apply O.
Qed.

(** X3.  Through the API a user linked to an employee record cannot reach
    a leave request of another employee: fetching, approving and
    rejecting it all answer 404 and write nothing. *)
Theorem api_hides_other_employees_requests
    (now : datetime) (table : list LeaveRequest) (u : User) (p id : pk)
    (why : Field string) :
  employee_profile u = Some p ->
  (forall r, In r table -> leave_pk r = id -> leave_employee r <> p) ->
  get_object table u id = None
  /\ approve now table u id = (None, table)
  /\ reject now table u id why = (inr None, table).
Proof.
  intros P Other.
  pose proof (api_lookup_hidden table u p id P Other) as G.
  unfold approve, reject. rewrite G. auto.
Qed.

Lemma api_hides_other_employees_requests_witness :
  approve 5 Sample.leave_requests Sample.employee_user 1
  = (None, Sample.leave_requests).
Proof.
  refine (proj1 (proj2
    (api_hides_other_employees_requests 5 Sample.leave_requests
       Sample.employee_user 2 1 missing eq_refl _))).
  intros r [<- | [<- | [<- | []]]]; cbn; intros; lia.
Defined.

(** X4.  Approving a pending request that the user can fetch answers 200
    and writes exactly that row: the row now reads as decided by the
    user at that time, every other primary key reads as before, the
    table keeps its length, and from then on no user can approve or
    reject that primary key again (the answer is 404 or 400).  Nothing
    stops the user from being the request's own employee. *)
Theorem api_approve_writes_one_row
    (now : datetime) (table : list LeaveRequest) (u : User) (id : pk)
    (r : LeaveRequest) :
  get_object table u id = Some r ->
  leave_status r = pending ->
  let r' := decided now u approved (rejection_reason r) r in
  let table' := write r' table in
  approve now table u id
  = (Some (mkResponse (data_body r') HTTP_200_OK), table')
  /\ get_object_or_404 table' id = Some r'
  /\ (forall id', id' <> id ->
        get_object_or_404 table' id' = get_object_or_404 table id')
  /\ List.length table' = List.length table
  /\ (forall t2 u2 why,
        (fst (approve t2 table' u2 id) = None
         \/ exists resp, fst (approve t2 table' u2 id) = Some resp
                         /\ status_code resp = HTTP_400_BAD_REQUEST)
        /\ snd (approve t2 table' u2 id) = table'
        /\ snd (reject t2 table' u2 id why) = table').
Proof.
  intros G P r' table'.
  destruct (get_object_some _ _ _ _ G) as (I & E & _).
  assert (Epk : leave_pk r' = id) by (cbn; exact E).
  split; [ | split; [ | split; [ | split ] ] ].
  - unfold approve. rewrite G, P. cbn. reflexivity.
  - subst table'. rewrite <- Epk. apply find_write_same.
    exists r. split; [ assumption | congruence ].
  - intros id' N. apply find_write_other. congruence.
  - apply length_map.
  - intros t2 u2 why.
    assert (F : forall x, get_object table' u2 id = Some x -> x = r').
    { intros x Gx. destruct (get_object_some _ _ _ _ Gx) as (Ix & Ex & _).
      apply in_write in Ix. destruct Ix as [-> | [_ N]];
        [ reflexivity | congruence ]. }
    unfold approve, reject.
    destruct (get_object table' u2 id) as [x|] eqn:Gx.
    + rewrite (F x eq_refl). cbn.
      split; [ right; eexists; split; reflexivity | auto ].
    + cbn. auto.
Qed.

Lemma api_approve_writes_one_row_witness :
  fst (approve 7 Sample.leave_requests Sample.employee_user 2)
  = Some (mkResponse
            (data_body
               (decided 7 Sample.employee_user approved ""
                  (Sample.leave 2 2 pending)))
            HTTP_200_OK).
Proof.
  exact (f_equal fst (proj1
    (api_approve_writes_one_row 7 Sample.leave_requests
       Sample.employee_user 2 (Sample.leave 2 2 pending)
       eq_refl eq_refl))).
Defined.

(** X24.  The pages do not scope leave requests: whoever the logged-in
    user is, approving a pending request through the pages succeeds and
    writes the row with that user as approver, also for a user to whom
    the API answers 404 for the same request because it belongs to
    another employee. *)
Theorem pages_do_not_scope_leave_requests
    (now : datetime) (table : list LeaveRequest) (u : User) (id : pk)
    (r : LeaveRequest) :
  get_object_or_404 table id = Some r ->
  leave_status r = pending ->
  leave_request_approve now table u id
  = (Some (success "Leave request approved successfully!"),
     write (decided now u approved (rejection_reason r) r) table)
  /\ (forall p,
        employee_profile u = Some p -> leave_employee r <> p ->
        (forall x, In x table -> leave_pk x = id -> x = r) ->
        approve now table u id = (None, table)).
Proof.
  intros G P. split.
  - unfold leave_request_approve. rewrite G, P. cbn. reflexivity.
  - intros p Pr Other Only. unfold approve.
    rewrite (api_lookup_hidden table u p id Pr); [ reflexivity | ].
    intros x I E. now rewrite (Only x I E).
Qed.

Lemma pages_do_not_scope_leave_requests_witness :
  fst (leave_request_approve 5 Sample.leave_requests Sample.employee_user 1)
  = Some (success "Leave request approved successfully!")
  /\ approve 5 Sample.leave_requests Sample.employee_user 1
     = (None, Sample.leave_requests).
Proof.
  destruct (pages_do_not_scope_leave_requests 5 Sample.leave_requests
              Sample.employee_user 1 (Sample.leave 1 1 pending)
              eq_refl eq_refl) as [A B].
  split; [ exact (f_equal fst A) | ].
  apply (B 2); [ reflexivity | discriminate | ].
  intros x [<- | [<- | [<- | []]]]; cbn; intros E;
    first [ reflexivity | discriminate ].
Defined.

End LeaveActions.

(** ** Sequences of approve and reject calls *)

Section LeaveLifecycle.
Import Datetime Models Invariants LeaveRequestViewSet Views LeaveCalls.

(** What one call does to the table: nothing, or it writes, in place of
    a pending row, that row as decided by the caller at the time of the
    call. *)
Lemma step_cases (now : datetime) (table : list LeaveRequest) (c : Call) :
  step now table c = table
  \/ exists x u s text,
       In x table /\ leave_status x = pending
       /\ (s = approved \/ s = rejected)
       /\ step now table c = write (decided now u s text x) table.
Proof.
  destruct c as [u id | u id why | u id | u id why]; cbn [step];
    unfold approve, reject, leave_request_approve, leave_request_reject.
  - destruct (get_object table u id) as [x|] eqn:G; [ | now left ].
    destruct (get_object_some _ _ _ _ G) as (I & _).
    destruct (LeaveStatus_eqb (leave_status x) pending) eqn:E;
      [ | now left ].
    apply LeaveStatus_eqb_eq in E. right.
    exists x, u, approved, (rejection_reason x). cbn. auto.
  - destruct (get_object table u id) as [x|] eqn:G; [ | now left ].
    destruct (get_object_some _ _ _ _ G) as (I & _).
    destruct (LeaveStatus_eqb (leave_status x) pending) eqn:E;
      [ | now left ].
    apply LeaveStatus_eqb_eq in E. cbn [negb].
    destruct (Request.get why "") as [text|]; [ | now left ].
    right. exists x, u, rejected, text. cbn. auto.
  - destruct (get_object_or_404 table id) as [x|] eqn:G; [ | now left ].
    destruct (get_object_or_404_some _ _ _ G) as (I & _).
    destruct (LeaveStatus_eqb (leave_status x) pending) eqn:E;
      [ | now left ].
    apply LeaveStatus_eqb_eq in E. right.
    exists x, u, approved, (rejection_reason x). cbn. auto.
  - destruct (get_object_or_404 table id) as [x|] eqn:G; [ | now left ].
    destruct (get_object_or_404_some _ _ _ G) as (I & _).
    destruct (LeaveStatus_eqb (leave_status x) pending) eqn:E;
      [ | now left ].
    apply LeaveStatus_eqb_eq in E. right.
    exists x, u, rejected,
      (match why with Some s => s | None => "" end). cbn. auto.
Qed.

Lemma leave_pk_determines_row (table : list LeaveRequest)
    (a b : LeaveRequest) :
  NoDup (map leave_pk table) -> In a table -> In b table ->
  leave_pk a = leave_pk b -> a = b.
Proof.
  induction table as [|x table IH]; cbn; [ tauto | ].
  intros N Ia Ib E. inversion N as [|? ? Nx N']; subst.
  destruct Ia as [-> | Ia], Ib as [-> | Ib].
  - reflexivity.
  - exfalso. apply Nx. rewrite E. now apply in_map.
  - exfalso. apply Nx. rewrite <- E. now apply in_map.
  - now apply IH.
Qed.

Lemma step_pks (now : datetime) (table : list LeaveRequest) (c : Call) :
  map leave_pk (step now table c) = map leave_pk table.
Proof.
  destruct (step_cases now table c) as [-> | (x & u & s & text & _ & _ & _ & ->)];
    [ reflexivity | apply write_pks ].
Qed.

Lemma step_keeps_decided (now : datetime) (table : list LeaveRequest)
    (c : Call) (r : LeaveRequest) :
  NoDup (map leave_pk table) -> In r table -> leave_status r <> pending ->
  In r (step now table c).
Proof.
  intros N I D.
  destruct (step_cases now table c)
    as [-> | (x & u & s & text & Ix & P & _ & ->)]; [ assumption | ].
  apply write_keeps; [ assumption | ]. cbn [decided leave_pk].
  intros E. apply D.
  now rewrite (leave_pk_determines_row table r x N I Ix E).
Qed.

Lemma run_pks (calls : list (datetime * Call)) :
  forall table, map leave_pk (run table calls) = map leave_pk table.
Proof.
  induction calls as [|[now c] calls IH]; intros table; [ reflexivity | ].
  cbn [run]. rewrite IH. apply step_pks.
Qed.

Lemma run_keeps_decided (calls : list (datetime * Call)) :
  forall table r,
    NoDup (map leave_pk table) -> In r table -> leave_status r <> pending ->
    In r (run table calls).
Proof.
  induction calls as [|[now c] calls IH]; intros table r N I D;
    [ assumption | ].
  cbn [run]. apply IH; [ | | assumption ].
  - now rewrite step_pks.
  - now apply step_keeps_decided.
Qed.

(** X1.  [approve] and [reject] never touch a request that is not
    pending.  After any sequence of approve and reject calls, through the
    API or the pages, by any users at any times, a stored request that
    was approved, rejected or cancelled at the start is stored unchanged,
    and so is the list of primary keys; a further [approve] or [reject]
    of it answers 400 to a user it is shown to and 404 to a user it is
    not shown to, the pages answer with the only-pending message, and
    none of them writes. *)
Theorem approve_and_reject_skip_decided_requests
    (table : list LeaveRequest) (r : LeaveRequest)
    (calls : list (datetime * Call)) :
  NoDup (map leave_pk table) -> In r table -> leave_status r <> pending ->
  let table' := run table calls in
  In r table'
  /\ map leave_pk table' = map leave_pk table
  /\ (forall now u why,
        approve now table' u (leave_pk r)
        = (if shown_to u r
           then Some (mkResponse
                        (error_body "Only pending requests can be approved")
                        HTTP_400_BAD_REQUEST)
           else None,
           table')
        /\ reject now table' u (leave_pk r) why
           = (inr (if shown_to u r
                   then Some (mkResponse
                                (error_body
                                   "Only pending requests can be rejected")
                                HTTP_400_BAD_REQUEST)
                   else None),
              table'))
  /\ (forall now u why,
        leave_request_approve now table' u (leave_pk r)
        = (Some (error "Only pending requests can be approved."), table')
        /\ leave_request_reject now table' u (leave_pk r) why
           = (Some (error "Only pending requests can be rejected."),
              table')).
Proof.
  intros N I D table'.
  pose proof (run_keeps_decided calls table r N I D) as I'.
  pose proof (run_pks calls table) as K. fold table' in I', K.
  assert (N' : NoDup (map leave_pk table')) by now rewrite K.
  apply LeaveStatus_eqb_neq in D.
  split; [ exact I' | ]. split; [ exact K | ]. split.
  - intros now u why. unfold approve, reject.
    rewrite (get_object_by_pk table' u r N' I').
    destruct (shown_to u r); [ rewrite D | ]; split; reflexivity.
  - intros now u why. unfold leave_request_approve, leave_request_reject.
    rewrite (get_object_or_404_by_pk table' r N' I'), D.
    split; reflexivity.
Qed.

Lemma approve_and_reject_skip_decided_requests_witness :
  In (Sample.leave 3 2 approved)
    (run Sample.leave_requests
       [(1, api_reject Sample.plain_user 3 (given "late"));
        (2, page_approve Sample.employee_user 3);
        (3, api_approve Sample.plain_user 2)]).
Proof.
  refine (proj1
    (approve_and_reject_skip_decided_requests Sample.leave_requests
       (Sample.leave 3 2 approved)
       [(1, api_reject Sample.plain_user 3 (given "late"));
        (2, page_approve Sample.employee_user 3);
        (3, api_approve Sample.plain_user 2)] _ _ _)).
  - repeat constructor; cbn; intuition discriminate.
  - right. right. now left.
  - discriminate.
Defined.





End LeaveLifecycle.

(** ** Validators *)

Section MoreValidation.
Import Datetime Models Spec Integrity.

(** X5.  A leave request built from data that passed validation lasts at
    least one day, and data that failed would give a request of zero or
    fewer days: for valid dates the serializer (and the form, which
    decides alike) accepts exactly when [total_days] is at least 1. *)
Theorem validated_leave_lasts_a_day
    (data : LeaveData) (r : LeaveRequest) :
  data_start_date data = Some (start_date r) ->
  data_end_date data = Some (end_date r) ->
  valid_date (start_date r) = true ->
  valid_date (end_date r) = true ->
  (is_valid (LeaveRequestSerializer.validate data) = true
   <-> 1 <= total_days r)
  /\ (is_valid (LeaveRequestForm.clean data) = true <-> 1 <= total_days r).
Proof.
  intros S E Vs Ve.
  assert (K : date_ltb (end_date r) (start_date r) = false
              <-> 1 <= total_days r).
  { unfold total_days, sub_days. split.
    - intros L.
      assert (Le : date_leb (start_date r) (end_date r) = true)
        by (unfold date_leb; rewrite L; reflexivity).
      pose proof (toordinal_le _ _ Vs Ve Le). lia.
    - intros T. destruct (date_ltb (end_date r) (start_date r)) eqn:L;
        [ | reflexivity ].
      pose proof (toordinal_lt _ _ Ve Vs L). lia. }
  unfold LeaveRequestSerializer.validate, LeaveRequestForm.clean.
  rewrite S, E. cbn.
  destruct (date_ltb (end_date r) (start_date r)); cbn;
    split; split; intros H; try reflexivity; try discriminate;
    try (apply K; reflexivity);
    try (apply K in H; discriminate).
Qed.

Lemma validated_leave_lasts_a_day_witness :
  is_valid (LeaveRequestSerializer.validate
              (mkLeaveData (Some (mkDate 2024 1 1)) (Some (mkDate 2024 1 5))))
  = true
  <-> 1 <= total_days (Sample.leave 1 1 pending).
Proof.
  exact (proj1 (validated_leave_lasts_a_day
                  (mkLeaveData (Some (mkDate 2024 1 1))
                     (Some (mkDate 2024 1 5)))
                  (Sample.leave 1 1 pending)
                  eq_refl eq_refl eq_refl eq_refl)).
Defined.

(** X6.  The pages and the API decide alike on leave dates, and the
    employee form is the laxer of the two employee validators: whatever
    the serializer's [validate] accepts the form's [clean] accepts, and
    when [clean] refuses, [validate] refuses with the same error. *)
Theorem forms_follow_serializers
    (instance : option Employee) (data : EmployeeData)
    (leave : LeaveData) :
  LeaveRequestForm.clean leave = LeaveRequestSerializer.validate leave
  /\ (is_valid (EmployeeCreateUpdateSerializer.validate instance data)
      = true ->
      EmployeeForm.clean data = inr data)
  /\ (forall e, EmployeeForm.clean data = inl e ->
        EmployeeCreateUpdateSerializer.validate instance data = inl e).
Proof.
  split; [ reflexivity | ].
  assert (F : EmployeeForm.clean data
              = if violates_date_ordering data
                then inl DateLeftBeforeJoined else inr data).
  { unfold EmployeeForm.clean, violates_date_ordering.
    destruct (data_date_left data) as [l|], (data_date_joined data) as [j|];
      try reflexivity.
    cbn. destruct (date_ltb l j); reflexivity. }
  rewrite F, validate_unfold.
  destruct (violates_date_ordering data); split;
    try discriminate; try reflexivity; auto.
Qed.

Lemma valid_time_inv (t : time) :
  valid_time t = true ->
  0 <= hour t < 24 /\ 0 <= minute t < 60 /\ 0 <= second t < 60
  /\ 0 <= microsecond t < 1000000.
Proof.
  unfold valid_time.
  repeat first [ rewrite andb_true_iff | rewrite Z.leb_le
               | rewrite Z.ltb_lt ].
  lia.
Qed.

Lemma time_ltb_microseconds (a b : time) :
  valid_time a = true -> valid_time b = true ->
  (time_ltb a b = true <-> microseconds_of a < microseconds_of b).
Proof.
  intros Va Vb.
  apply valid_time_inv in Va. apply valid_time_inv in Vb.
  unfold time_ltb, microseconds_of.
  repeat first [ rewrite orb_true_iff | rewrite andb_true_iff
               | rewrite Z.ltb_lt | rewrite Z.eqb_eq ].
  lia.
Qed.

(** X7.  With both times given, the attendance serializer accepts
    exactly when the check-out is not earlier in the day than the
    check-in (equal times pass); with either time missing it accepts. *)
Theorem attendance_needs_nonnegative_duration
    (data : AttendanceData) (t_in t_out : time) :
  valid_time t_in = true -> valid_time t_out = true ->
  data_check_in data = Some t_in ->
  (data_check_out data = Some t_out ->
   (AttendanceSerializer.validate data = inr data
    <-> microseconds_of t_in <= microseconds_of t_out)
   /\ (AttendanceSerializer.validate data = inl CheckOutBeforeCheckIn
       <-> microseconds_of t_out < microseconds_of t_in))
  /\ (data_check_out data = None ->
      AttendanceSerializer.validate data = inr data).
Proof.
  intros Vi Vo I. rewrite attendance_serializer_rule.
  unfold violates_check_out. rewrite I. split.
  - intros ->. pose proof (time_ltb_microseconds t_out t_in Vo Vi) as T.
    destruct (time_ltb t_out t_in).
    + assert (microseconds_of t_out < microseconds_of t_in)
        by (apply T; reflexivity).
      split; split; intros; try reflexivity; try discriminate; lia.
    + assert (~ microseconds_of t_out < microseconds_of t_in)
        by (intros C; apply T in C; discriminate).
      split; split; intros; try reflexivity; try discriminate; lia.
  - intros ->. reflexivity.
Qed.

Lemma attendance_needs_nonnegative_duration_witness :
  AttendanceSerializer.validate Sample.out_before_in
  = inl CheckOutBeforeCheckIn
  <-> microseconds_of (mkTime 9 0 0 0) < microseconds_of (mkTime 17 0 0 0).
Proof.
  exact (proj2 (proj1
    (attendance_needs_nonnegative_duration Sample.out_before_in
       (mkTime 17 0 0 0) (mkTime 9 0 0 0) eq_refl eq_refl eq_refl)
    eq_refl)).
Defined.

(** X8.  With the dates in order, a non-zero salary and no zero bound,
    the employee serializer accepts exactly when the salary lies within
    the bounds of the position, an absent bound leaving its side open;
    the position is the one sent or, when none is sent, the one of the
    employee being edited. *)
Theorem salary_must_lie_within_bounds
    (instance : option Employee) (data : EmployeeData) (salary : Decimal)
    (p : Position) :
  violates_date_ordering data = false ->
  data_salary data = Some salary -> salary <> 0 ->
  match data_position data with
  | Some sent => sent = p
  | None => option_map position instance = Some p
  end ->
  min_salary p <> Some 0 -> max_salary p <> Some 0 ->
  (EmployeeCreateUpdateSerializer.validate instance data = inr data
   <-> (forall lo, min_salary p = Some lo -> lo <= salary)
       /\ (forall hi, max_salary p = Some hi -> salary <= hi)).
Proof.
  intros D S Z P Lo Hi.
  assert (G : EmployeeCreateUpdateSerializer.get_position instance data
              = Some p).
  { unfold EmployeeCreateUpdateSerializer.get_position.
    destruct (data_position data); congruence. }
  pose proof (check_salary_nonzero instance data salary p S Z G Lo Hi) as C.
  rewrite validate_unfold, D.
  assert (B : violates_salary_bounds (Some salary) (Some p) = false
              <-> (forall lo, min_salary p = Some lo -> lo <= salary)
                  /\ (forall hi, max_salary p = Some hi -> salary <= hi)).
  { unfold violates_salary_bounds. rewrite orb_false_iff.
    destruct (min_salary p) as [lo|], (max_salary p) as [hi|];
      rewrite ?Z.ltb_ge; split;
      try (intros [A B]; split; intros x E; inversion E; subst; lia);
      try (intros [A B]; split;
           first [ reflexivity | apply A; reflexivity
                 | apply B; reflexivity ]). }
  rewrite <- B.
  destruct (EmployeeCreateUpdateSerializer.check_salary instance data)
    as [e|u]; unfold is_valid in C;
    destruct (violates_salary_bounds (Some salary) (Some p));
    try discriminate C; split; first [ discriminate | reflexivity ].
Qed.

Lemma salary_must_lie_within_bounds_witness :
  EmployeeCreateUpdateSerializer.validate (Some Sample.EMP001)
    (mkEmployeeData None None None None (Some 1000000) None)
  = inr (mkEmployeeData None None None None (Some 1000000) None)
  <-> (forall lo, min_salary Sample.engineer = Some lo -> lo <= 1000000)
      /\ (forall hi, max_salary Sample.engineer = Some hi ->
                     1000000 <= hi).
Proof.
  apply (salary_must_lie_within_bounds (Some Sample.EMP001)
           (mkEmployeeData None None None None (Some 1000000) None)
           1000000 Sample.engineer);
    first [ reflexivity | discriminate ].
Defined.

(** X9.  The uniqueness checks of the serializer and of the form, for the
    e-mail address and for the employee id.  On creation a value is
    refused exactly when a stored employee has it.  On an edit the
    employee's own stored value passes when the column is unique in the
    table, and the value of any other employee is refused. *)
Theorem uniqueness_checks
    (objects : list Employee) (i other : Employee) (value : string) :
  ((EmployeeCreateUpdateSerializer.validate_email objects None value
    = inl EmailExists
    <-> exists e, In e objects /\ email e = value)
   /\ (EmployeeCreateUpdateSerializer.validate_employee_id objects None value
       = inl EmployeeIdExists
       <-> exists e, In e objects /\ employee_id e = value))
  /\ (In i objects ->
      (unique_column email objects ->
       EmployeeCreateUpdateSerializer.validate_email objects (Some i)
         (email i) = inr (email i))
      /\ (unique_column employee_id objects ->
          EmployeeCreateUpdateSerializer.validate_employee_id objects
            (Some i) (employee_id i) = inr (employee_id i)))
  /\ (In other objects -> employee_pk other <> employee_pk i ->
      EmployeeCreateUpdateSerializer.validate_email objects (Some i)
        (email other) = inl EmailExists
      /\ EmployeeCreateUpdateSerializer.validate_employee_id objects
           (Some i) (employee_id other) = inl EmployeeIdExists)
  /\ (forall inst (data : EmployeeData),
        data_email data = Some value ->
        errors (EmployeeForm.clean_email objects inst data)
        = errors (EmployeeCreateUpdateSerializer.validate_email objects
                    inst value))
  /\ (forall inst (data : EmployeeData),
        data_employee_id data = Some value ->
        errors (EmployeeForm.clean_employee_id objects inst data)
        = errors (EmployeeCreateUpdateSerializer.validate_employee_id
                    objects inst value)).
Proof.
  unfold EmployeeCreateUpdateSerializer.validate_email,
    EmployeeCreateUpdateSerializer.validate_employee_id,
    EmployeeForm.clean_email, EmployeeForm.clean_employee_id.
  assert (Own : forall column,
             In i objects -> unique_column column objects ->
             exists_other column objects (Some i) (column i) = false).
  { intros column I U.
    destruct (exists_other column objects (Some i) (column i)) eqn:X;
      [ | reflexivity ].
    apply exists_other_iff in X. destruct X as (e & Ie & C & N).
    exfalso. apply (N i eq_refl). now apply U. }
  assert (Taken : forall column,
             In other objects -> employee_pk other <> employee_pk i ->
             exists_other column objects (Some i) (column other) = true).
  { intros column I N. apply exists_other_iff. exists other.
    repeat split; try assumption. intros j J. inversion J; subst.
    assumption. }
  assert (New : forall column,
             exists_other column objects None value = true
             <-> exists e, In e objects /\ column e = value).
  { intros column. rewrite exists_other_iff. split.
    - intros (e & I & C & _). eauto.
    - intros (e & I & C). exists e. repeat split; try assumption.
      discriminate. }
  split; [ split | split; [ | split; [ | split ] ] ].
  - rewrite <- New. destruct (exists_other email objects None value);
      cbn; split; congruence.
  - rewrite <- New. destruct (exists_other employee_id objects None value);
      cbn; split; congruence.
  - intros I. split; intros U; rewrite (Own _ I U); reflexivity.
  - intros I N. split; rewrite (Taken _ I N); reflexivity.
  - intros inst data ->.
    destruct (exists_other email objects inst value); reflexivity.
  - intros inst data ->.
    destruct (exists_other employee_id objects inst value); reflexivity.
Qed.

End MoreValidation.

(** ** Permissions *)

Section PermissionRules.
Import Datetime Models Permissions ObjectPermissions.

(** X10.  [IsHROrReadOnly]: a request is let through exactly when the
    user is authenticated and either the method is GET, HEAD or OPTIONS
    or the user holds the elevated role; so an anonymous user gets
    nothing, and POST, PUT, PATCH and DELETE need the role. *)
Theorem read_only_unless_hr (method : string) (u : User) :
  (has_permission method u = true
   <-> is_authenticated u = true
       /\ (In method SAFE_METHODS \/ is_hr u = true))
  /\ (In method ["POST"; "PUT"; "PATCH"; "DELETE"] ->
      has_permission method u = is_authenticated u && is_hr u)
  /\ (is_authenticated u = false -> has_permission method u = false).
Proof.
  unfold has_permission, is_hr.
  assert (S : existsb (String.eqb method) SAFE_METHODS = true
              <-> In method SAFE_METHODS).
  { rewrite existsb_exists. split.
    - intros (m & I & E). apply String.eqb_eq in E. now subst.
    - intros I. exists method. split; [ assumption | ].
      apply String.eqb_refl. }
  split; [ | split ].
  - destruct (existsb (String.eqb method) SAFE_METHODS).
    + split; [ intros ->; split; [ reflexivity | left; now apply S ]
             | tauto ].
    + rewrite andb_true_iff. split; [ tauto | ].
      intros [A [I | H]]; [ | tauto ].
      apply S in I. discriminate.
  - intros [<- | [<- | [<- | [<- | []]]]]; reflexivity.
  - intros ->. destruct (existsb _ _); reflexivity.
Qed.

(** X11.  Object permissions.  [IsManagerOrHR] lets through everything
    [IsOwnerOrHR] lets through, and both let the elevated role through
    on any object.  Without the role, [IsManagerOrHR] grants an employee
    record, or a record that belongs to an employee, exactly to that
    employee's direct manager and to the user the employee is linked to;
    it grants a position to nobody, and [IsOwnerOrHR] grants a record
    that merely belongs to an employee to nobody. *)
Theorem object_permission_rules (u : User) (obj : Object) (e : Employee) :
  (IsOwnerOrHR.has_object_permission u obj = true ->
   IsManagerOrHR.has_object_permission u obj = true)
  /\ (is_hr u = true ->
      IsManagerOrHR.has_object_permission u obj = true
      /\ IsOwnerOrHR.has_object_permission u obj = true)
  /\ (is_hr u = false ->
      (IsManagerOrHR.has_object_permission u (employee_object e) = true
       <-> (exists p, employee_profile u = Some p /\ manager e = Some p)
           \/ user e = Some (user_pk u))
      /\ (IsManagerOrHR.has_object_permission u (employee_record e) = true
          <-> (exists p, employee_profile u = Some p /\ manager e = Some p)
              \/ user e = Some (user_pk u))
      /\ (IsOwnerOrHR.has_object_permission u (employee_object e) = true
          <-> user e = Some (user_pk u))
      /\ IsManagerOrHR.has_object_permission u other_object = false
      /\ IsOwnerOrHR.has_object_permission u (employee_record e) = false).
Proof.
  unfold IsManagerOrHR.has_object_permission,
    IsOwnerOrHR.has_object_permission, is_hr.
  split; [ | split ].
  - destruct (is_staff u || in_group "HR" u); [ reflexivity | ].
    destruct obj as [x | d | x | ]; try discriminate.
    cbn. intros ->.
    destruct (match employee_profile u with
              | Some _ => _ | None => _ end); reflexivity.
  - intros ->. split; reflexivity.
  - intros ->.
    assert (M : forall (m : option pk) (p : pk),
               match m with Some x => x =? p | None => false end = true
               <-> m = Some p).
    { intros [x|] p; [ rewrite Z.eqb_eq | ]; split; congruence. }
    repeat split.
    + cbn. rewrite ?orb_false_r.
      destruct (employee_profile u) as [p|] eqn:P.
      * destruct (match manager e with
                  | Some m => m =? p | None => false end) eqn:X.
        -- intros _. left. exists p. split; [ reflexivity | ].
           now apply M.
        -- destruct (match user e with
                     | Some x => x =? user_pk u | None => false end) eqn:Y;
             [ intros _; right; now apply M | discriminate ].
      * destruct (match user e with
                  | Some x => x =? user_pk u | None => false end) eqn:Y;
          [ intros _; right; now apply M | discriminate ].
    + cbn. rewrite ?orb_false_r.
      intros [(p & P & Mg) | U].
      * rewrite P. apply M in Mg. rewrite Mg. reflexivity.
      * apply M in U. rewrite U.
        destruct (employee_profile u) as [p|];
          [ destruct (match manager e with
                      | Some m => m =? p | None => false end) | ];
          reflexivity.
    + cbn.
      destruct (employee_profile u) as [p|] eqn:P.
      * destruct (match manager e with
                  | Some m => m =? p | None => false end) eqn:X.
        -- intros _. left. exists p. split; [ reflexivity | ].
           now apply M.
        -- destruct (match user e with
                     | Some x => x =? user_pk u | None => false end) eqn:Y;
             [ intros _; right; now apply M | discriminate ].
      * destruct (match user e with
                  | Some x => x =? user_pk u | None => false end) eqn:Y;
          [ intros _; right; now apply M | discriminate ].
    + cbn.
      intros [(p & P & Mg) | U].
      * rewrite P. apply M in Mg. rewrite Mg. reflexivity.
      * apply M in U. rewrite U.
        destruct (employee_profile u) as [p|];
          [ destruct (match manager e with
                      | Some m => m =? p | None => false end) | ];
          reflexivity.
    + apply M.
    + apply M.
    + cbn. destruct (employee_profile u); reflexivity.
Qed.

End PermissionRules.

(** ** Computed properties of an employee *)

Ltac reflect_in H :=
  repeat first [ rewrite orb_true_iff in H | rewrite andb_true_iff in H
               | rewrite orb_false_iff in H | rewrite andb_false_iff in H
               | rewrite negb_true_iff in H | rewrite negb_false_iff in H
               | rewrite Z.ltb_lt in H | rewrite Z.eqb_eq in H
               | rewrite Z.ltb_ge in H | rewrite Z.eqb_neq in H
               | rewrite Z.leb_le in H | rewrite Z.leb_gt in H ].

Ltac reflect_goal :=
  repeat first [ rewrite orb_true_iff | rewrite andb_true_iff
               | rewrite orb_false_iff | rewrite andb_false_iff
               | rewrite negb_true_iff | rewrite negb_false_iff
               | rewrite Z.ltb_lt | rewrite Z.eqb_eq
               | rewrite Z.ltb_ge | rewrite Z.eqb_neq
               | rewrite Z.leb_le | rewrite Z.leb_gt ].

Section EmployeeProperties.
Import Datetime Models Directory.

(** X12.  [age] is the number of birthdays passed: the anniversary of the
    date of birth in year [born + age] is not after today and the next
    one is, which no other number satisfies; it is not negative once the
    date of birth is not after today. *)
Theorem age_counts_birthdays
    (self : EmployeeRow) (today born : date) :
  date_of_birth self = Some born ->
  let anniversary n := mkDate (year born + n) (month born) (day born) in
  exists n,
    age self today = Some n
    /\ date_leb (anniversary n) today = true
    /\ date_ltb today (anniversary (n + 1)) = true
    /\ (forall m, date_leb (anniversary m) today = true ->
                  date_ltb today (anniversary (m + 1)) = true -> m = n)
    /\ (date_leb born today = true -> 0 <= n).
Proof.
  intros B anniversary. unfold age. rewrite B. eexists.
  split; [ reflexivity | ].
  unfold date_leb, date_ltb, pair_ltb, anniversary.
  cbn [year month day fst snd].
  destruct ((month today <? month born)
            || (month today =? month born) && (day today <? day born))
    eqn:C; reflect_in C; repeat split; try intros m;
    reflect_goal; lia.
Qed.

Lemma age_counts_birthdays_witness :
  exists n,
    age (mkEmployeeRow Sample.EMP001 "FT" (Some (mkDate 1990 6 15)))
      (mkDate 2024 6 14)
    = Some n
    /\ n = 33.
Proof.
  destruct (age_counts_birthdays
              (mkEmployeeRow Sample.EMP001 "FT" (Some (mkDate 1990 6 15)))
              (mkDate 2024 6 14) (mkDate 1990 6 15) eq_refl)
    as (n & A & _).
  exists n. split; [ exact A | ].
  cbn in A. inversion A. reflexivity.
Defined.

(** X13.  [years_of_service] is the whole number of 365-day spans between
    the joining date and the leaving date, or today while the employee
    has not left.  Once a leaving date is stored it no longer depends on
    today.  It is not negative when the joining date is not after the end
    date, negative when it is, and while the employee has not left it
    never decreases as today advances.  On a row as it is read from the
    table it never raises.  After a [terminate] call that saves, it is
    counted up to the leaving date the call stored (today when no date
    was sent, the date the text sent was read as otherwise); when [null]
    was sent no leaving date is stored and it is counted up to the day
    it is read on. *)
Theorem years_of_service_rules (self : Employee) (today : date) :
  valid_date (date_joined self) = true ->
  valid_date today = true ->
  match date_left self with Some d => valid_date d = true | None => True end ->
  let end_date :=
    match date_left self with Some d => d | None => today end in
  (365 * years_of_service self today
   <= sub_days end_date (date_joined self)
   < 365 * (years_of_service self today + 1))
  /\ (date_leb (date_joined self) end_date = true ->
      0 <= years_of_service self today)
  /\ (date_ltb end_date (date_joined self) = true ->
      years_of_service self today < 0)
  /\ (date_left self <> None ->
      forall another_day,
        years_of_service self another_day = years_of_service self today)
  /\ (date_left self = None ->
      forall later, valid_date later = true ->
        date_leb today later = true ->
        years_of_service self today <= years_of_service self later)
  /\ EmployeeViewSet.years_of_service (date_joined self)
       (match date_left self with
        | Some d => EmployeeViewSet.is_date d
        | None => EmployeeViewSet.is_none
        end) today
     = inr (years_of_service self today)
  /\ (forall to_python now table data stored e',
        EmployeeViewSet.get_object table (employee_pk self) = Some self ->
        EmployeeViewSet.column to_python
          (EmployeeViewSet.date_left_of today data) = Some stored ->
        EmployeeViewSet.get_object
          (snd (EmployeeViewSet.terminate to_python today now table
                  (employee_pk self) data))
          (employee_pk self) = Some e' ->
        forall another_day,
          years_of_service e' another_day
          = sub_days
              (match stored with Some d => d | None => another_day end)
              (date_joined self) / 365).
Proof.
  intros Vj Vt Vl end_date. unfold years_of_service. fold end_date.
  assert (Ve : valid_date end_date = true).
  { subst end_date. destruct (date_left self); assumption. }
  split; [ | split; [ | split; [ | split; [ | split; [ | split ] ] ] ] ].
  - pose proof (Z.div_mod (sub_days end_date (date_joined self)) 365).
    pose proof (Z.mod_pos_bound (sub_days end_date (date_joined self)) 365).
    lia.
  - intros L. pose proof (toordinal_le _ _ Vj Ve L).
    apply Z.div_pos; unfold sub_days; lia.
  - intros L. pose proof (toordinal_lt _ _ Ve Vj L).
    apply Z.div_lt_upper_bound; unfold sub_days; lia.
  - intros N another_day. destruct (date_left self); [ reflexivity | ].
    contradiction.
  - intros N later Vlater L. subst end_date. rewrite N.
    pose proof (toordinal_le _ _ Vt Vlater L).
    apply Z.div_le_mono; unfold sub_days; lia.
  - rewrite years_of_service_in_memory. subst end_date.
    destruct (date_left self); reflexivity.
  - intros to_python now table data stored e' G C G' another_day.
    destruct (terminate_saves to_python today now table (employee_pk self)
                data self stored G C)
      as (e1 & W & F & _ & _ & L & _ & _ & _ & J).
    rewrite W, F in G'. injection G' as <-.
    rewrite L. injection J as _ _ J _ _ _ _. rewrite J.
    destruct stored; reflexivity.
Qed.

Lemma years_of_service_rules_witness :
  0 <= years_of_service Sample.EMP001 (mkDate 2024 6 1).
Proof.
  exact (proj1 (proj2
    (years_of_service_rules Sample.EMP001 (mkDate 2024 6 1)
       eq_refl eq_refl I)) eq_refl).
Defined.

End EmployeeProperties.

(** ** Photo paths and repeated termination *)

Section PhotoPath.
Import Datetime Models Directory.

Lemma string_app_assoc (a b c : string) : (a ++ b) ++ c = a ++ (b ++ c).
Proof. induction a as [|x a IH]; cbn; [ reflexivity | now rewrite IH ]. Qed.

Lemma string_app_length (a b : string) :
  String.length (a ++ b) = (String.length a + String.length b)%nat.
Proof. induction a as [|x a IH]; cbn; [ reflexivity | now rewrite IH ]. Qed.

Lemma string_app_nil (a : string) : a ++ EmptyString = a.
Proof. induction a as [|x a IH]; cbn; [ reflexivity | now rewrite IH ]. Qed.

(** [sep.join(s.split(sep)) == s]. *)
Lemma join_split (sep : ascii) (s : string) :
  String.concat (String sep EmptyString) (split sep s) = s.
Proof.
  unfold split. induction s as [|c s IH]; [ reflexivity | ].
  cbn [split_at]. destruct (split_at sep s) as [seg rest].
  destruct (Ascii.eqb_spec c sep) as [-> | D].
  - cbn [String.concat]. cbn. now rewrite <- IH.
  - destruct rest as [|r rest]; cbn in *; now rewrite <- IH.
Qed.

Lemma split_segments_free (sep : ascii) (s : string) :
  Forall (fun seg => ~ In sep (list_ascii_of_string seg)) (split sep s).
Proof.
  unfold split. induction s as [|c s IH].
  - cbn. constructor; [ tauto | constructor ].
  - cbn [split_at]. destruct (split_at sep s) as [seg rest].
    inversion IH as [|? ? Hseg Hrest]; subst.
    destruct (Ascii.eqb_spec c sep) as [-> | D].
    + constructor; [ cbn; tauto | assumption ].
    + constructor; [ | assumption ].
      cbn. intros [E | I]; [ congruence | contradiction ].
Qed.

Lemma split_without_separator (sep : ascii) (s : string) :
  ~ In sep (list_ascii_of_string s) -> split sep s = [s].
Proof.
  unfold split. induction s as [|c s IH]; [ reflexivity | ].
  cbn. intros N.
  destruct (split_at sep s) as [seg rest].
  destruct (Ascii.eqb_spec c sep) as [-> | D]; [ tauto | ].
  assert (E : seg :: rest = [s]) by (apply IH; tauto).
  inversion E; subst. reflexivity.
Qed.

Lemma join_ends_with_last (sep : ascii) (l : list string) :
  l <> [] ->
  exists stem,
    String.concat (String sep EmptyString) l = stem ++ last l EmptyString
    /\ (stem = EmptyString
        \/ exists before, stem = before ++ String sep EmptyString).
Proof.
  induction l as [|x l IH]; [ congruence | ]. intros _.
  destruct l as [|y l].
  - exists EmptyString. cbn. auto.
  - destruct IH as (stem & E & P); [ discriminate | ].
    change (last (x :: y :: l) EmptyString)
      with (last (y :: l) EmptyString).
    change (String.concat (String sep EmptyString) (x :: y :: l))
      with (x ++ String sep EmptyString
              ++ String.concat (String sep EmptyString) (y :: l)).
    rewrite E.
    exists (x ++ String sep EmptyString ++ stem). split.
    + now rewrite !string_app_assoc.
    + right. destruct P as [-> | (before & ->)].
      * exists x. now rewrite string_app_nil.
      * exists (x ++ String sep EmptyString ++ before).
        now rewrite !string_app_assoc.
Qed.

(** X14.  [employee_photo_path] stores a photo under
    [employee_photos/employee_<employee_id>.<ext>], where [ext] is what
    follows the last dot of the uploaded name: it holds no dot, the
    uploaded name ends with it, and what precedes it is empty or ends
    with a dot.  A name without a dot is taken whole as the extension.
    The path depends on the uploaded name through [ext] alone. *)
Theorem photo_path_keeps_the_extension
    (instance : Employee) (filename : string) :
  exists stem ext,
    employee_photo_path instance filename
    = "employee_photos/employee_" ++ employee_id instance ++ "." ++ ext
    /\ filename = stem ++ ext
    /\ ~ In "."%char (list_ascii_of_string ext)
    /\ (stem = EmptyString \/ exists before, stem = before ++ ".")
    /\ (~ In "."%char (list_ascii_of_string filename) -> ext = filename)
    /\ (forall other,
          last (split "." other) EmptyString = ext ->
          employee_photo_path instance other
          = employee_photo_path instance filename).
Proof.
  destruct (join_ends_with_last "." (split "." filename)) as (stem & E & P).
  { unfold split. destruct (split_at "." filename). discriminate. }
  rewrite join_split in E.
  exists stem, (last (split "." filename) EmptyString).
  split; [ reflexivity | ].
  split; [ exact E | ].
  split.
  { pose proof (split_segments_free "." filename) as F.
    rewrite Forall_forall in F. apply F.
    unfold split. destruct (split_at "." filename) as [seg rest].
    clear. revert seg. induction rest as [|r rest IH]; intros seg.
    - now left.
    - right. apply (IH r). }
  split; [ exact P | ].
  split.
  { intros N. now rewrite (split_without_separator _ _ N). }
  intros other O. unfold employee_photo_path. now rewrite O.
Qed.

(** X15.  [terminate] is not idempotent.  Of two calls for one stored
    employee whose dates [save()] accepts, each appends its block to the
    notes: a blank line, the line ["Termination Date: "] with the date
    as the request spelt it ([None] for [null], today in ISO format when
    no date was sent) and the line ["Reason: "] with the reason.  The
    notes get strictly longer and keep the notes of the first call as a
    prefix, the leaving date is replaced by what the second call stored,
    the status stays [terminated] and no row is added or removed.  A call
    whose date text [save()] refuses raises and writes nothing. *)
Theorem terminate_appends_each_time
    (to_python : string -> option date) (today1 today2 : date)
    (t1 t2 : datetime) (table : list Employee) (id : pk) (e : Employee)
    (data1 data2 : EmployeeViewSet.TerminateData)
    (stored1 stored2 : option date) :
  EmployeeViewSet.get_object table id = Some e ->
  EmployeeViewSet.column to_python
    (EmployeeViewSet.date_left_of today1 data1) = Some stored1 ->
  EmployeeViewSet.column to_python
    (EmployeeViewSet.date_left_of today2 data2) = Some stored2 ->
  let table1 :=
    snd (EmployeeViewSet.terminate to_python today1 t1 table id data1) in
  let table2 :=
    snd (EmployeeViewSet.terminate to_python today2 t2 table1 id data2) in
  (exists e1 e2,
     EmployeeViewSet.get_object table1 id = Some e1
     /\ EmployeeViewSet.get_object table2 id = Some e2
     /\ notes e1 = notes e ++ EmployeeViewSet.appended today1 data1
     /\ notes e2
        = notes e ++ EmployeeViewSet.appended today1 data1
          ++ EmployeeViewSet.appended today2 data2
     /\ String.prefix (notes e1) (notes e2) = true
     /\ (String.length (notes e1) < String.length (notes e2))%nat
     /\ status e2 = terminated
     /\ date_left e1 = stored1
     /\ date_left e2 = stored2)
  /\ map employee_pk table2 = map employee_pk table
  /\ (forall today now data,
        EmployeeViewSet.column to_python
          (EmployeeViewSet.date_left_of today data) = None ->
        EmployeeViewSet.terminate to_python today now table id data
        = (inl EmployeeViewSet.InvalidDate, table)).
Proof.
  intros G C1 C2 table1 table2.
  destruct (terminate_saves to_python today1 t1 table id data1 e stored1
              G C1)
    as (e1 & W1 & F1 & _ & _ & L1 & N1 & _).
  fold table1 in W1. rewrite <- W1 in F1.
  destruct (terminate_saves to_python today2 t2 table1 id data2 e1 stored2
              F1 C2)
    as (e2 & W2 & F2 & _ & S2 & L2 & N2 & _).
  fold table2 in W2. rewrite <- W2 in F2.
  split; [ | split ].
  - exists e1, e2. rewrite N2, N1, string_app_assoc.
    repeat split; try assumption.
    + rewrite <- string_app_assoc. apply prefix_app.
    + rewrite <- string_app_assoc.
      rewrite (string_app_length (notes e ++ _)
                 (EmployeeViewSet.appended today2 data2)).
      assert (0 < String.length (EmployeeViewSet.appended today2 data2))%nat
        by (unfold EmployeeViewSet.appended, LF; cbn; lia).
      lia.
  - rewrite W2, write_employee_pks, W1. apply write_employee_pks.
  - intros today now data C. now apply (terminate_refused _ _ _ _ _ _ e).
Qed.

Lemma terminate_appends_each_time_witness :
  exists e2,
    EmployeeViewSet.get_object
      (snd (EmployeeViewSet.terminate (fun _ => None) (mkDate 2024 6 2) 2
              (snd (EmployeeViewSet.terminate (fun _ => None)
                      (mkDate 2024 6 1) 1 [Sample.EMP001] 1
                      (EmployeeViewSet.mkTerminateData missing
                         (given "resignation"))))
              1 (EmployeeViewSet.mkTerminateData null missing)))
      1
    = Some e2
    /\ notes e2
       = LF ++ LF ++ "Termination Date: 2024-06-01" ++ LF
         ++ "Reason: resignation" ++ LF ++ LF ++ "Termination Date: None"
         ++ LF ++ "Reason: ".
Proof.
  destruct (terminate_appends_each_time (fun _ => None)
              (mkDate 2024 6 1) (mkDate 2024 6 2) 1 2 [Sample.EMP001] 1
              Sample.EMP001
              (EmployeeViewSet.mkTerminateData missing (given "resignation"))
              (EmployeeViewSet.mkTerminateData null missing)
              (Some (mkDate 2024 6 1)) None eq_refl eq_refl eq_refl)
    as [(e1 & e2 & _ & G2 & _ & N2 & _) _].
  exists e2. split; [ exact G2 | exact N2 ].
Defined.

End PhotoPath.

(** ** The dashboards *)

Section DashboardFacts.
Import Datetime Models Directory Dashboard.

Lemma filter_length_le {A : Type} (f : A -> bool) (l : list A) :
  (List.length (filter f l) <= List.length l)%nat.
Proof.
  induction l as [|a l IH]; cbn; [ lia | ].
  destruct (f a); cbn; lia.
Qed.

Lemma disjoint_filters {A : Type} (f g : A -> bool) (l : list A) :
  (forall a, f a = true -> g a = false) ->
  (List.length (filter f l) + List.length (filter g l)
   <= List.length l)%nat.
Proof.
  intros D. induction l as [|a l IH]; cbn; [ lia | ].
  destruct (f a) eqn:F; [ rewrite (D a F) | destruct (g a) ]; cbn; lia.
Qed.

(** Counting the rows of each key of a duplicate-free key list counts
    every row whose key is listed once. *)
Lemma group_counts {A : Type} (key : A -> string) (keys : list string)
    (l : list A) :
  NoDup keys ->
  fold_right
    (fun k n =>
       (List.length (filter (fun a => String.eqb (key a) k) l) + n)%nat)
    0%nat keys
  = List.length (filter (fun a => existsb (String.eqb (key a)) keys) l).
Proof.
  intros N. induction N as [|k keys NI N IH]; cbn [fold_right].
  - induction l as [|a l IHl]; cbn; auto.
  - rewrite IH. clear IH.
    induction l as [|a l IHl]; [ reflexivity | ].
    cbn [filter].
    change (existsb (String.eqb (key a)) (k :: keys))
      with (String.eqb (key a) k || existsb (String.eqb (key a)) keys).
    destruct (String.eqb_spec (key a) k) as [E | D]; cbn [orb].
    + assert (X : existsb (String.eqb (key a)) keys = false).
      { destruct (existsb (String.eqb (key a)) keys) eqn:X;
          [ | reflexivity ].
        apply existsb_exists in X. destruct X as (k' & I & E').
        apply String.eqb_eq in E'. exfalso. apply NI. congruence. }
      rewrite X. cbn [List.length]. lia.
    + destruct (existsb (String.eqb (key a)) keys); cbn [List.length]; lia.
Qed.

Lemma total_map {A : Type} (f : A -> string * nat) (l : list A) :
  total (map f l)
  = fold_right (fun a n => (snd (f a) + n)%nat) 0%nat l.
Proof.
  unfold total. induction l as [|a l IH]; cbn; [ reflexivity | ].
  now rewrite IH.
Qed.

(** X16.  The counters of the dashboard are consistent with one another:
    active and on-leave employees together never exceed the total; the
    counts by employment type list each type once, never with a count of
    zero, and add up to the number of active employees; the recent hires
    are at most ten. *)
Theorem dashboard_counters_are_consistent (today : date) (t : Tables) :
  let s := dashboard_stats today t in
  (active_employees s + stats_on_leave s <= total_employees s)%nat
  /\ total (employees_by_employment_type s) = active_employees s
  /\ NoDup (map fst (employees_by_employment_type s))
  /\ (forall k n, In (k, n) (employees_by_employment_type s) ->
                  (1 <= n)%nat)
  /\ (List.length (recent_hires s) <= 10)%nat
  /\ (List.length (employees_by_department s) = total_departments s)
  /\ (pending_leave_requests s <= List.length (leaves t))%nat.
Proof.
  intros s. subst s. unfold dashboard_stats.
  cbn [active_employees stats_on_leave total_employees
       employees_by_employment_type recent_hires employees_by_department
       total_departments pending_leave_requests].
  split; [ | split; [ | split; [ | split; [ | split; [ | split ] ] ] ] ].
  - apply disjoint_filters. unfold has_status. intros a.
    destruct (status (base a)); cbn; congruence.
  - unfold by_employment_type.
    set (actives := filter (has_status active) (employee_rows t)).
    rewrite total_map. cbn [snd].
    rewrite (group_counts employment_type) by apply NoDup_nodup.
    f_equal. apply forallb_filter_id. apply forallb_forall.
    intros a I. apply existsb_exists. exists (employment_type a).
    split; [ | apply String.eqb_refl ].
    apply nodup_In. now apply in_map.
  - unfold by_employment_type. rewrite map_map. cbn [fst].
    rewrite map_id. apply NoDup_nodup.
  - unfold by_employment_type. intros k n I.
    apply in_map_iff in I. destruct I as (k' & E & I).
    inversion E; subst. clear E.
    apply nodup_In in I. apply in_map_iff in I.
    destruct I as (a & E & I).
    assert (X : In a (filter (fun e => String.eqb (employment_type e) k)
                        (filter (has_status active) (employee_rows t)))).
    { apply filter_In. split; [ assumption | ].
      now apply String.eqb_eq. }
    destruct (filter (fun e => String.eqb (employment_type e) k) _);
      [ contradiction | cbn [List.length]; lia ].
  - rewrite length_firstn. lia.
  - unfold by_department. apply length_map.
  - apply filter_length_le.
Qed.

Lemma department_counts (rows : list EmployeeRow) (ds : list Department) :
  NoDup (map department_pk ds) ->
  fold_right (fun d n => (active_count rows d + n)%nat) 0%nat ds
  = List.length
      (filter
         (fun e =>
            has_status active e
            && existsb (fun d => department (base e) =? department_pk d) ds)
         rows).
Proof.
  intros N. induction ds as [|d ds IH]; cbn [fold_right].
  - induction rows as [|e rows IHr]; cbn; [ reflexivity | ].
    now rewrite andb_false_r.
  - cbn [map] in N. inversion N as [|? ? NI N']; subst.
    rewrite (IH N'). clear IH. unfold active_count.
    induction rows as [|e rows IHr]; [ reflexivity | ].
    cbn [filter].
    change (existsb (fun d0 => department (base e) =? department_pk d0)
              (d :: ds))
      with ((department (base e) =? department_pk d)
            || existsb (fun d0 => department (base e) =? department_pk d0)
                 ds).
    destruct (has_status active e); cbn [andb];
      [ | rewrite andb_false_r; exact IHr ].
    rewrite andb_true_r.
    destruct (Z.eqb_spec (department (base e)) (department_pk d))
      as [E | D]; cbn [orb].
    + assert (X : existsb
                    (fun d0 => department (base e) =? department_pk d0) ds
                  = false).
      { destruct (existsb _ ds) eqn:X; [ | reflexivity ].
        apply existsb_exists in X. destruct X as (d' & I & E').
        apply Z.eqb_eq in E'. exfalso. apply NI.
        rewrite <- E, E'. now apply in_map. }
      rewrite X. cbn [List.length]. lia.
    + destruct (existsb _ ds); cbn [List.length]; lia.
Qed.

Lemma filter_and_le {A : Type} (f g : A -> bool) (l : list A) :
  (List.length (filter (fun a => f a && g a) l)
   <= List.length (filter f l))%nat.
Proof.
  induction l as [|a l IH]; cbn; [ lia | ].
  destruct (f a), (g a); cbn; lia.
Qed.

Lemma filter_and_all {A : Type} (f g : A -> bool) (l : list A) :
  (forall a, In a l -> f a = true -> g a = true) ->
  filter (fun a => f a && g a) l = filter f l.
Proof.
  intros H. apply filter_ext_in. intros a I.
  destruct (f a) eqn:F; [ | reflexivity ]. now rewrite (H a I F).
Qed.

(** X17.  With department primary keys unique, the per-department counts
    of the dashboard count no active employee twice: they add up to at
    most the number of active employees, and to exactly that number when
    every active employee belongs to a department that is stored and
    active; a department without active employees is listed with 0. *)
Theorem department_counts_add_up (today : date) (t : Tables) :
  NoDup (map department_pk (departments t)) ->
  let s := dashboard_stats today t in
  (total (employees_by_department s) <= active_employees s)%nat
  /\ ((forall e, In e (employee_rows t) -> has_status active e = true ->
         exists d, In d (departments t) /\ is_active d = true
                   /\ department_pk d = department (base e)) ->
      total (employees_by_department s) = active_employees s)
  /\ (forall d, In d (departments t) -> is_active d = true ->
        In (name d, active_count (employee_rows t) d)
          (employees_by_department s)).
Proof.
  intros N s. subst s. unfold dashboard_stats.
  cbn [employees_by_department active_employees]. unfold by_department.
  rewrite total_map. cbn [snd].
  assert (N' : NoDup (map department_pk (filter is_active (departments t)))).
  { clear - N. induction (departments t) as [|d ds IH]; [ constructor | ].
    cbn [map] in N. inversion N as [|? ? NI N']; subst. cbn [filter].
    destruct (is_active d); [ | now apply IH ].
    cbn [map]. constructor; [ | now apply IH ].
    intros I. apply NI. apply in_map_iff in I.
    destruct I as (x & E & I). apply filter_In in I.
    rewrite <- E. apply in_map. tauto. }
  rewrite (department_counts _ _ N').
  split; [ | split ].
  - apply (filter_and_le (has_status active)).
  - intros H. f_equal. apply (filter_and_all (has_status active)).
    intros e I A. destruct (H e I A) as (d & Id & Ad & E).
    apply existsb_exists. exists d. split.
    + apply filter_In. auto.
    + apply Z.eqb_eq. congruence.
  - intros d I A. apply in_map_iff. exists d. split; [ reflexivity | ].
    apply filter_In. auto.
Qed.

Lemma department_counts_add_up_witness :
  let today := mkDate 2024 6 1 in
  let t :=
    mkTables
      [mkEmployeeRow Sample.EMP001 "FT" None;
       mkEmployeeRow Sample.EMP003 "PT" None]
      [mkDepartment 1 "Engineering" "ENG" None true;
       mkDepartment 2 "Sales" "SALES" None true]
      [] in
  (total (employees_by_department (dashboard_stats today t))
   <= active_employees (dashboard_stats today t))%nat.
Proof.
  intros today t.
  refine (proj1 (department_counts_add_up today t _)).
  cbn. repeat constructor; cbn; intuition discriminate.
Defined.



End DashboardFacts.

(** ** Recent hires *)

Section RecentHires.
Import Datetime Models Directory Dashboard.

Lemma valid_date_intro (y m d : Z) :
  1 <= y <= 9999 -> 1 <= m <= 12 -> 1 <= d <= days_in_month y m ->
  valid_date (mkDate y m d) = true.
Proof.
  intros Y M D. unfold valid_date. cbn [year month day].
  repeat (apply andb_true_intro; split); apply Z.leb_le; lia.
Qed.

Lemma prev_day_ordinal (d : date) :
  valid_date d = true -> 1 < toordinal d ->
  valid_date (prev_day d) = true
  /\ toordinal (prev_day d) = toordinal d - 1.
Proof.
  intros V L. destruct (valid_date_inv d V) as (Y & M & D).
  unfold prev_day.
  destruct (Z.ltb_spec 1 (day d)) as [Hd | Hd].
  { split; [ apply valid_date_intro; lia | ].
    unfold toordinal. cbn [year month day]. lia. }
  destruct (Z.ltb_spec 1 (month d)) as [Hm | Hm].
  { pose proof (days_in_month_bounds (year d) (month d - 1)).
    pose proof (days_before_month_succ (year d) (month d - 1)) as S.
    replace (month d - 1 + 1) with (month d) in S by lia.
    split; [ apply valid_date_intro; lia | ].
    unfold toordinal. cbn [year month day]. lia. }
  assert (Em : month d = 1) by lia.
  assert (Ed : day d = 1) by lia.
  unfold toordinal in L |- *. cbn [year month day].
  rewrite Em, Ed in *.
  change (days_before_month (year d) 1)
    with (0 + (if false && is_leap (year d) then 1 else 0)) in *.
  cbn [andb] in *.
  change (days_before_month (year d - 1) 12)
    with (334 + (if true && is_leap (year d - 1) then 1 else 0)).
  cbn [andb].
  pose proof (days_before_year_succ (year d - 1)) as S.
  replace (year d - 1 + 1) with (year d) in S by lia.
  assert (Y2 : 2 <= year d).
  { destruct (Z.eq_dec (year d) 1) as [E | N]; [ | lia ].
    rewrite E in L. change (days_before_year 1) with 0 in L. lia. }
  split; [ | lia ].
  apply valid_date_intro; try lia.
  change (days_in_month (year d - 1) 12) with 31. lia.
Qed.

Lemma minus_days_ordinal (d : date) (n : nat) :
  valid_date d = true -> Z.of_nat n < toordinal d ->
  valid_date (minus_days d n) = true
  /\ toordinal (minus_days d n) = toordinal d - Z.of_nat n.
Proof.
  intros V. unfold minus_days. induction n as [|n IH]; intros L.
  - cbn. split; [ assumption | lia ].
  - destruct IH as [Vn On]; [ lia | ].
    change (Nat.iter (S n) prev_day d)
      with (prev_day (Nat.iter n prev_day d)).
    destruct (prev_day_ordinal _ Vn) as [V' O']; [ lia | ].
    split; [ assumption | lia ].
Qed.

(** X19.  The recent hires of the API's statistics are the first ten, in
    table order, of the employees whose joining date lies no more than
    thirty days before today; there is no upper limit, so a joining date
    in the future counts as recent. *)
Theorem recent_hires_joined_within_thirty_days
    (today : date) (t : Tables) :
  valid_date today = true ->
  30 < toordinal today ->
  (forall e, In e (employee_rows t) ->
             valid_date (date_joined (base e)) = true) ->
  let recent :=
    filter (fun e => sub_days today (date_joined (base e)) <=? 30)
      (employee_rows t) in
  recent_hires (dashboard_stats today t) = firstn 10 (map hire_values recent)
  /\ ctx_recent_hires (dashboard today t) = firstn 5 recent
  /\ (forall e, In e (employee_rows t) ->
        date_leb today (date_joined (base e)) = true -> In e recent).
Proof.
  intros V L Vj recent.
  destruct (minus_days_ordinal today 30 V L) as [V30 O30].
  assert (W : forall e, In e (employee_rows t) ->
              date_leb (minus_days today 30) (date_joined (base e))
              = (sub_days today (date_joined (base e)) <=? 30)).
  { intros e I. specialize (Vj e I). unfold sub_days.
    destruct (date_leb (minus_days today 30) (date_joined (base e))) eqn:C.
    - pose proof (toordinal_le _ _ V30 Vj C). symmetry.
      apply Z.leb_le. lia.
    - unfold date_leb in C. apply negb_false_iff in C.
      pose proof (toordinal_lt _ _ Vj V30 C). symmetry.
      apply Z.leb_gt. lia. }
  assert (E : hired_since (minus_days today 30) (employee_rows t) = recent).
  { unfold hired_since, recent. apply filter_ext_in. exact W. }
  unfold dashboard_stats, dashboard. cbn [recent_hires ctx_recent_hires].
  rewrite E. split; [ reflexivity | split; [ reflexivity | ] ].
  intros e I F. subst recent. apply filter_In. split; [ assumption | ].
  pose proof (toordinal_le _ _ V (Vj e I) F).
  apply Z.leb_le. unfold sub_days. lia.
Qed.

Lemma recent_hires_joined_within_thirty_days_witness :
  recent_hires
    (dashboard_stats (mkDate 2022 1 20)
       (mkTables [mkEmployeeRow Sample.EMP001 "FT" None] [] []))
  = [("EMP001", "Ada", "Lovelace", mkDate 2022 1 1)].
Proof.
  refine (proj1
    (recent_hires_joined_within_thirty_days (mkDate 2022 1 20)
       (mkTables [mkEmployeeRow Sample.EMP001 "FT" None] [] [])
       eq_refl eq_refl _)).
  intros e [<- | []]. reflexivity.
Defined.

End RecentHires.

(** ** Bulk marking of attendance *)

Section BulkMark.
Import Datetime Models AttendanceManager AttendanceViewSet Integrity.

Variable now : datetime.
Variable d : date.
Variable s : string.

Lemma update_or_create_outcome (db : Database) (emp_id : pk) :
  Constraints.hold db ->
  let r := update_or_create now db emp_id d (Some s) in
  (fst r = inl IntegrityError /\ snd r = db
   /\ employee_exists db emp_id = false /\ records_for db emp_id d = [])
  \/ (exists obj created,
        fst r = inr (obj, created) /\ marked now d s (snd r) emp_id obj).
Proof.
  intros H. pose proof H as (Npk & Seq & Uniq).
  unfold marked, records_for, update_or_create.
  pose proof (Uniq emp_id d) as U.
  destruct (filter (matches emp_id d) (attendance db))
    as [|obj [|obj2 rest]] eqn:F; [ | | cbn in U; lia ].
  - destruct (employee_exists db emp_id) eqn:Ex; cbn [fst snd].
    + right. eexists. exists true. split; [ reflexivity | ].
      cbn [attendance]. rewrite filter_app, F. cbn [filter].
      replace (matches emp_id d _) with true; [ cbn; auto | ].
      symmetry. apply matches_iff. cbn. auto.
    + left. auto.
  - destruct (filter_singleton_in _ _ _ F) as [I M]. cbn [fst snd].
    right. eexists. exists false. split; [ reflexivity | ].
    cbn [attendance]. rewrite filter_update_row by assumption.
    rewrite F. cbn [map]. rewrite Z.eqb_refl. cbn. auto.
Qed.

Lemma update_or_create_frame (db : Database) (emp_id e' : pk) (d' : date) :
  Constraints.hold db -> e' <> emp_id \/ d' <> d ->
  records_for (snd (update_or_create now db emp_id d (Some s))) e' d'
  = records_for db e' d'.
Proof.
  intros (Npk & Seq & Uniq) Other. unfold records_for, update_or_create.
  destruct (filter (matches emp_id d) (attendance db))
    as [|obj [|obj2 rest]] eqn:F; [ | | reflexivity ].
  - destruct (employee_exists db emp_id); [ | reflexivity ].
    cbn [snd attendance]. rewrite filter_app. cbn [filter].
    destruct (matches e' d' _) eqn:M; [ | apply app_nil_r ].
    apply matches_iff in M. cbn in M. exfalso. intuition congruence.
  - destruct (filter_singleton_in _ _ _ F) as [I M].
    cbn [snd attendance]. rewrite filter_update_row by assumption.
    rewrite <- (map_id (filter (matches e' d') (attendance db))) at 2.
    apply map_ext_in. intros a Ia. apply filter_In in Ia.
    destruct Ia as [Ia Ma].
    destruct (Z.eqb_spec (attendance_pk a) (attendance_pk obj)) as [E|];
      [ | reflexivity ].
    rewrite (pk_determines_row _ a obj Npk Ia I E) in Ma.
    apply matches_iff in M. apply matches_iff in Ma. exfalso.
    intuition congruence.
Qed.

Lemma update_or_create_columns (db : Database) (emp_id : pk) :
  Constraints.hold db ->
  let db' := snd (update_or_create now db emp_id d (Some s)) in
  employees db' = employees db
  /\ exists added,
       map untouched_columns (attendance db')
       = (map untouched_columns (attendance db) ++ added)%list
       /\ (List.length added <= 1)%nat.
Proof.
  intros (Npk & Seq & Uniq). unfold update_or_create.
  destruct (filter (matches emp_id d) (attendance db))
    as [|obj [|obj2 rest]] eqn:F.
  - destruct (employee_exists db emp_id); cbn [snd attendance employees].
    + split; [ reflexivity | ]. rewrite map_app.
      eexists. split; [ reflexivity | cbn; lia ].
    + split; [ reflexivity | ]. exists []. rewrite app_nil_r.
      split; [ reflexivity | cbn; lia ].
  - destruct (filter_singleton_in _ _ _ F) as [I M].
    cbn [snd attendance employees]. split; [ reflexivity | ].
    exists []. rewrite app_nil_r. split; [ | cbn; lia ].
    unfold update_row. rewrite map_map. apply map_ext_in. intros a Ia.
    cbn [with_status attendance_pk].
    destruct (Z.eqb_spec (attendance_pk a) (attendance_pk obj)) as [E|];
      [ | reflexivity ].
    rewrite (pk_determines_row _ a obj Npk Ia I E). reflexivity.
  - cbn [snd]. split; [ reflexivity | ]. exists []. rewrite app_nil_r.
    split; [ reflexivity | cbn; lia ].
Qed.


Lemma update_row_same (obj : Attendance) (rows : list Attendance) :
  NoDup (map attendance_pk rows) -> In obj rows ->
  update_row obj rows = rows.
Proof.
  intros N I. unfold update_row.
  rewrite <- (map_id rows) at 2. apply map_ext_in. intros a Ia.
  destruct (Z.eqb_spec (attendance_pk a) (attendance_pk obj)) as [E|];
    [ | reflexivity ].
  symmetry. now apply (pk_determines_row rows).
Qed.

(** Marking again what is already marked changes nothing. *)
Lemma update_or_create_again (db : Database) (id : pk) (a : Attendance) :
  Constraints.hold db -> marked now d s db id a ->
  update_or_create now db id d (Some s) = (inr (a, false), db).
Proof.
  intros (Npk & Seq & Uniq) (F & S & T).
  unfold records_for in F. unfold update_or_create. rewrite F.
  destruct (filter_singleton_in _ _ _ F) as [I M].
  assert (E : with_status s now a = a).
  { destruct a; cbn in *. subst. reflexivity. }
  rewrite E, update_row_same by assumption.
  destruct db; reflexivity.
Qed.

Lemma update_or_create_keeps_marked (db : Database) (x id : pk)
    (a : Attendance) :
  Constraints.hold db -> marked now d s db id a ->
  marked now d s (snd (update_or_create now db x d (Some s))) id a.
Proof.
  intros H M. destruct (Z.eq_dec id x) as [-> | N].
  - now rewrite (update_or_create_again db x a H M).
  - destruct M as (F & S & T). split; [ | auto ].
    rewrite update_or_create_frame; auto.
Qed.

Lemma mark_each_keeps_marked (ids : list pk) :
  forall (db : Database) (acc : list Attendance) (id : pk)
         (a : Attendance),
    Constraints.hold db -> marked now d s db id a ->
    marked now d s (snd (mark_each now db d (Some s) ids acc)) id a.
Proof.
  induction ids as [|x ids IH]; intros db acc id a H M; [ exact M | ].
  cbn [mark_each].
  pose proof (update_or_create_holds now db x d s H) as H'.
  pose proof (update_or_create_keeps_marked db x id a H M) as M'.
  destruct (update_or_create now db x d (Some s)) as [[exn | [obj c]] db'];
    cbn [snd] in *; [ exact M' | now apply IH ].
Qed.

Lemma mark_each_again (db : Database) (done : list pk)
    (rows : list Attendance) :
  Constraints.hold db -> Forall2 (marked now d s db) done rows ->
  forall rest acc,
    mark_each now db d (Some s) (done ++ rest)%list acc
    = mark_each now db d (Some s) rest (acc ++ rows)%list.
Proof.
  intros H F. induction F as [|id a done rows M F IH]; intros rest acc.
  - now rewrite app_nil_r.
  - cbn [app mark_each]. rewrite (update_or_create_again db id a H M).
    rewrite IH, <- app_assoc. reflexivity.
Qed.

(** What the loop of [bulk_mark] does: it marks the identifiers in order
    up to the first one that is not a stored employee and has no row. *)
Lemma mark_each_outcome (ids : list pk) :
  forall (db : Database) (acc : list Attendance),
    Constraints.hold db ->
    let r := mark_each now db d (Some s) ids acc in
    exists done rest rows,
      ids = (done ++ rest)%list
      /\ Forall2 (marked now d s (snd r)) done rows
      /\ ((rest = [] /\ fst r = inr (acc ++ rows)%list)
          \/ (exists x rest',
                rest = x :: rest' /\ fst r = inl IntegrityError
                /\ employee_exists (snd r) x = false
                /\ records_for (snd r) x d = [])).
Proof.
  induction ids as [|x ids IH]; intros db acc H.
  - exists [], [], []. cbn. rewrite app_nil_r. auto.
  - cbn [mark_each].
    pose proof (update_or_create_holds now db x d s H) as H'.
    destruct (update_or_create_outcome db x H)
      as [(R & Db & Ex & No) | (obj & c & R & M)].
    + destruct (update_or_create now db x d (Some s)) as [res db'].
      cbn [fst snd] in *. subst res db'.
      exists [], (x :: ids), []. cbn [app fst snd].
      split; [ reflexivity | ]. split; [ constructor | ].
      right. exists x, ids. auto.
    + destruct (update_or_create now db x d (Some s)) as [res db'].
      cbn [fst snd] in *. subst res.
      destruct (IH db' (acc ++ [obj])%list H')
        as (done & rest & rows & E & F & Out).
      exists (x :: done), rest, (obj :: rows).
      split; [ cbn; now rewrite E | ].
      split.
      { constructor; [ | exact F ].
        now apply mark_each_keeps_marked. }
      destruct Out as [[-> Ok] | Bad]; [ left | right; exact Bad ].
      split; [ reflexivity | ]. rewrite Ok, <- app_assoc. reflexivity.
Qed.

Lemma mark_each_frame (ids : list pk) :
  forall (db : Database) (acc : list Attendance) (e' : pk) (d' : date),
    Constraints.hold db -> ~ In e' ids \/ d' <> d ->
    records_for (snd (mark_each now db d (Some s) ids acc)) e' d'
    = records_for db e' d'.
Proof.
  induction ids as [|x ids IH]; intros db acc e' d' H Other;
    [ reflexivity | ].
  cbn [mark_each].
  pose proof (update_or_create_holds now db x d s H) as H'.
  assert (Fx : records_for (snd (update_or_create now db x d (Some s))) e' d'
               = records_for db e' d').
  { apply update_or_create_frame; [ assumption | ].
    destruct Other as [N | N]; [ left | right; assumption ].
    intros ->. apply N. now left. }
  destruct (update_or_create now db x d (Some s)) as [[exn | [obj c]] db'];
    cbn [snd] in *; [ exact Fx | ].
  rewrite IH; [ exact Fx | assumption | ].
  destruct Other as [N | N]; [ left | right; assumption ].
  intros I. apply N. now right.
Qed.

Lemma mark_each_columns (ids : list pk) :
  forall (db : Database) (acc : list Attendance),
    Constraints.hold db ->
    let db' := snd (mark_each now db d (Some s) ids acc) in
    employees db' = employees db
    /\ exists added,
         map untouched_columns (attendance db')
         = (map untouched_columns (attendance db) ++ added)%list
         /\ (List.length added <= List.length ids)%nat.
Proof.
  induction ids as [|x ids IH]; intros db acc H.
  - cbn. split; [ reflexivity | ]. exists []. rewrite app_nil_r.
    split; [ reflexivity | cbn; lia ].
  - cbn [mark_each].
    pose proof (update_or_create_holds now db x d s H) as H'.
    destruct (update_or_create_columns db x H) as (Em & added & C & L).
    destruct (update_or_create now db x d (Some s)) as [[exn | [obj c]] db'];
      cbn [snd] in *.
    + split; [ exact Em | ]. exists added.
      split; [ exact C | cbn; lia ].
    + destruct (IH db' (acc ++ [obj])%list H')
        as (Em' & added' & C' & L').
      split; [ congruence | ]. exists (added ++ added')%list.
      split; [ rewrite C', C, app_assoc; reflexivity | ].
      rewrite length_app. cbn [List.length]. lia.
Qed.


End BulkMark.

Section BulkMarkProperties.
Import Datetime Models AttendanceManager AttendanceViewSet Integrity.







(** X21.  [bulk_mark] writes nothing but the status (and the update time)
    of the rows it marks: the employee table is unchanged; no row is
    removed or reordered and every stored row keeps its primary key,
    employee, date, check-in, check-out, notes and creation time; at most
    one row per identifier is added; the rows of every other employee,
    and of every other date, are exactly as before; and a call without a
    date or without identifiers answers 400 and writes nothing. *)
Theorem bulk_mark_writes_only_the_status
    (now : datetime) (db : Database) (data : BulkMarkData) :
  Constraints.hold db ->
  let db' := snd (bulk_mark now db data) in
  employees db' = employees db
  /\ (exists added,
        map untouched_columns (attendance db')
        = (map untouched_columns (attendance db) ++ added)%list
        /\ (List.length added <= List.length (req_employee_ids data))%nat)
  /\ (forall e' d',
        ~ In e' (req_employee_ids data) \/ req_date data <> Some d' ->
        records_for db' e' d' = records_for db e' d')
  /\ (req_date data = None \/ req_employee_ids data = [] ->
      bulk_mark now db data
      = (inr (mkResponse (error_body "Date and employee_ids are required")
                HTTP_400_BAD_REQUEST),
         db)).
Proof.
  intros H db'. subst db'. unfold bulk_mark.
  assert (Same : forall rows : list Attendance,
             exists added,
               map untouched_columns rows
               = (map untouched_columns rows ++ added)%list
               /\ (List.length added
                   <= List.length (req_employee_ids data))%nat).
  { intros rows. exists []. rewrite app_nil_r.
    split; [ reflexivity | cbn; lia ]. }
  destruct (req_date data) as [d|] eqn:D;
    [ | cbn [snd]; repeat split; auto ].
  destruct (req_employee_ids data) as [|x ids] eqn:I;
    [ cbn [snd]; repeat split; auto | ].
  destruct (Request.get (req_status data) "present") as [s|].
  - destruct (mark_each_columns now d s (x :: ids) db [] H) as (Em & C).
    pose proof
      (fun e' d' => mark_each_frame now d s (x :: ids) db [] e' d' H)
      as Fr.
    destruct (mark_each now db d (Some s) (x :: ids) [])
      as [[exn | records] db1]; cbn [snd] in *.
    + split; [ exact Em | ]. split; [ exact C | ]. split.
      * intros e' d' [N | N]; apply Fr; [ now left | right; congruence ].
      * intros [X | X]; discriminate.
    + split; [ exact Em | ]. split; [ exact C | ]. split.
      * intros e' d' [N | N]; apply Fr; [ now left | right; congruence ].
      * intros [X | X]; discriminate.
  - destruct (mark_each_null now db d x ids []) as (exn & -> & _).
    cbn [snd]. split; [ reflexivity | ]. split; [ apply Same | ]. split.
    + reflexivity.
    + intros [X | X]; discriminate.
Qed.

Lemma bulk_mark_writes_only_the_status_witness :
  employees
    (snd (bulk_mark 1 Sample.two_employees
            (mkBulkMarkData (Some (mkDate 2024 1 1)) [1; 2] missing)))
  = employees Sample.two_employees.
Proof.
  exact (proj1
    (bulk_mark_writes_only_the_status 1 Sample.two_employees
       (mkBulkMarkData (Some (mkDate 2024 1 1)) [1; 2] missing)
       (empty_table_holds _))).
Defined.



(** X23.  [bulk_mark] is idempotent: repeating a call at the same instant
    gives the same answer (the same rows, or the same exception) and
    leaves the tables exactly as the first call left them. *)
Theorem bulk_mark_is_idempotent
    (now : datetime) (db : Database) (data : BulkMarkData) :
  Constraints.hold db ->
  bulk_mark now (snd (bulk_mark now db data)) data = bulk_mark now db data.
Proof.
  intros H. unfold bulk_mark.
  destruct (req_date data) as [d|]; [ | reflexivity ].
  destruct (req_employee_ids data) as [|x ids]; [ reflexivity | ].
  destruct (Request.get (req_status data) "present") as [s|].
  - pose proof (mark_each_holds now d s (x :: ids) db [] H) as H'.
    destruct (mark_each_outcome now d s (x :: ids) db [] H)
      as (done & rest & rows & E & F & Out).
    destruct (mark_each now db d (Some s) (x :: ids) []) as [res db'].
    cbn [fst snd] in *.
    assert (Again : mark_each now db' d (Some s) (x :: ids) []
                    = (res, db')).
    { rewrite E, (mark_each_again now d s db' done rows H' F).
      cbn [app].
      destruct Out as [[-> Ok] | (y & rest' & -> & Bad & Ex & No)];
        subst res; [ reflexivity | ].
      cbn [mark_each]. unfold update_or_create.
      unfold records_for in No. rewrite No, Ex. reflexivity. }
    destruct res as [exn | records]; cbn [snd]; rewrite Again; reflexivity.
  - destruct (mark_each_null now db d x ids []) as (exn & E & _).
    rewrite E. cbn [snd]. rewrite E. reflexivity.
Qed.

Lemma bulk_mark_is_idempotent_witness :
  bulk_mark 1
    (snd (bulk_mark 1 Sample.two_employees
            (mkBulkMarkData (Some (mkDate 2024 1 1)) [1; 2; 3] missing)))
    (mkBulkMarkData (Some (mkDate 2024 1 1)) [1; 2; 3] missing)
  = bulk_mark 1 Sample.two_employees
      (mkBulkMarkData (Some (mkDate 2024 1 1)) [1; 2; 3] missing).
Proof.
  exact (bulk_mark_is_idempotent 1 Sample.two_employees
           (mkBulkMarkData (Some (mkDate 2024 1 1)) [1; 2; 3] missing)
           (empty_table_holds _)).
Defined.

End BulkMarkProperties.
